(** * enlib.interpol: adaptive grid refinement and finite-difference interpolators

    A shallow embedding of [src/interpol/interpol.py]: the driver [build], the
    interpolator classes [ip_linear], [ip_grad] and [ip_ndimage] (the last
    one up to its external kernel), and the helpers [lin_derivs_forward] and
    [grad_forward], together with the fragment of NumPy they are written in.

    Conventions of the embedding.
    - Python exceptions are values of [exn]; a computation that may raise has
      type [result A].
    - A float is a finite value, held as an exact rational, or one of the
      special values NaN, -inf, +inf.  A sum, product or quotient whose
      magnitude reaches the overflow threshold of binary64 is the infinity
      of its sign; rounding to 53 bits is not modelled, and the statements
      on floats are those that rounding leaves true.
    - An [ndarray] is a shape with its elements in row-major order.
    - [build] runs in a monad that threads the clock and the log of the
      batches handed to the target function; its [while True] loop is given a
      number of rounds after which the run is reported as [OutOfFuel]. *)

From Stdlib Require Import String ZArith QArith Qround Qabs List Bool Lia Lqa.
Import ListNotations.

Set Implicit Arguments.
Local Open Scope Z_scope.

(** ** Exceptions and results *)

Inductive exn : Type :=
| OverflowError (msg : string)
| ValueError (msg : string)
| IndexError (msg : string)
| AttributeError (msg : string)
| TypeError (msg : string).

Inductive result (A : Type) : Type :=
| Ok (a : A)
| Raise (e : exn).

Arguments Ok {A} a.
Arguments Raise {A} e.

Definition bind {A B : Type} (m : result A) (k : A -> result B) : result B :=
  match m with
  | Ok a => k a
  | Raise e => Raise e
  end.

Notation "x <- m ;; k" := (bind m (fun x => k))
  (at level 61, m at next level, right associativity).
Notation "' p <- m ;; k" := (bind m (fun p => k))
  (at level 61, p pattern, m at next level, right associativity).

Definition is_ok {A : Type} (r : result A) : bool :=
  match r with Ok _ => true | Raise _ => false end.

(** [for x in xs: acc = body(acc, x)], stopping at the first exception. *)
Fixpoint foldM {A B : Type} (body : B -> A -> result B) (xs : list A) (acc : B)
  : result B :=
  match xs with
  | [] => Ok acc
  | x :: rest => acc' <- body acc x ;; foldM body rest acc'
  end.

Fixpoint mapM {A B : Type} (f : A -> result B) (xs : list A) : result (list B) :=
  match xs with
  | [] => Ok []
  | x :: rest => y <- f x ;; ys <- mapM f rest ;; Ok (y :: ys)
  end.

(** ** Floats *)

Module Float.

Inductive float : Type :=
| NaN
| NegInf
| Fin (q : Q)
| PosInf.

Definition zero : float := Fin 0.
Definition one : float := Fin 1.
Definition of_int (k : Z) : float := Fin (inject_Z k).

Definition isnan (x : float) : bool :=
  match x with NaN => true | _ => false end.

Definition Qltb (a b : Q) : bool := negb (Qle_bool b a).

(** Sign of a rational: -1, 0 or 1. *)
Definition Qsgn (a : Q) : Z := Z.sgn (Qnum a).

Definition neg (x : float) : float :=
  match x with
  | NaN => NaN
  | NegInf => PosInf
  | Fin q => Fin (Qred (- q))
  | PosInf => NegInf
  end.

(** The least magnitude that binary64 rounds to an infinity: half a unit
    in the last place above the largest finite value. *)
Definition huge : Z := 2 ^ 1024 - 2 ^ 970.

(** The float of the exact result [q] of an operation on finite values. *)
Definition of_exact (q : Q) : float :=
  if Qle_bool (inject_Z huge) q then PosInf
  else if Qle_bool q (inject_Z (- huge)) then NegInf
  else Fin q.

Definition add (x y : float) : float :=
  match x, y with
  | NaN, _ | _, NaN => NaN
  | PosInf, NegInf | NegInf, PosInf => NaN
  | PosInf, _ | _, PosInf => PosInf
  | NegInf, _ | _, NegInf => NegInf
  | Fin a, Fin b => of_exact (Qred (a + b))
  end.

Definition sub (x y : float) : float := add x (neg y).

(** An infinity of the sign [s]; NaN when [s] is 0 (inf * 0). *)
Definition inf_of_sign (s : Z) : float :=
  match s with
  | Z0 => NaN
  | Zpos _ => PosInf
  | Zneg _ => NegInf
  end.

Definition sign (x : float) : Z :=
  match x with
  | NaN => 0
  | NegInf => -1
  | Fin q => Qsgn q
  | PosInf => 1
  end.

Definition mul (x y : float) : float :=
  match x, y with
  | NaN, _ | _, NaN => NaN
  | Fin a, Fin b => of_exact (Qred (a * b))
  | _, _ => inf_of_sign (sign x * sign y)
  end.

(** Division; a zero divisor is the positive zero. *)
Definition div (x y : float) : float :=
  match x, y with
  | NaN, _ | _, NaN => NaN
  | Fin a, Fin b =>
      if Qeq_bool b 0 then inf_of_sign (Qsgn a) else of_exact (Qred (a / b))
  | Fin _, _ => zero
  | _, Fin b => inf_of_sign (sign x * (if Qeq_bool b 0 then 1 else Qsgn b))
  | _, _ => NaN
  end.

(** [x < y]; every comparison with NaN is false. *)
Definition ltb (x y : float) : bool :=
  match x, y with
  | NaN, _ | _, NaN => false
  | _, NegInf => false
  | NegInf, _ => true
  | PosInf, _ => false
  | _, PosInf => true
  | Fin a, Fin b => Qltb a b
  end.

Definition gtb (x y : float) : bool := ltb y x.

(** [np.minimum] and [np.maximum] on scalars: NaN propagates. *)
Definition minimum (x y : float) : float :=
  if isnan x then x else if isnan y then y else if ltb y x then y else x.

Definition maximum (x y : float) : float :=
  if isnan x then x else if isnan y then y else if ltb x y then y else x.

Definition floor (x : float) : float :=
  match x with
  | Fin q => Fin (inject_Z (Qfloor q))
  | _ => x
  end.

Definition int64_min : Z := - 2 ^ 63.
Definition int64_max : Z := 2 ^ 63 - 1.

(** [astype(int)]: truncation towards zero; a value that does not fit in
    64 bits, an infinity or NaN gives the most negative integer (the
    result of the conversion instruction on x86-64). *)
Definition to_int (x : float) : Z :=
  match x with
  | Fin q =>
      let t := Z.quot (Qnum q) (Zpos (Qden q)) in
      if (int64_min <=? t) && (t <=? int64_max) then t else int64_min
  | _ => int64_min
  end.

(** [x ** k] for an integer exponent; [x ** 0] is 1 for every [x]. *)
Definition pow (x : float) (k : Z) : float :=
  match k with
  | Z0 => one
  | Zpos p => Pos.iter (mul x) one p
  | Zneg p => div one (Pos.iter (mul x) one p)
  end.

(** Square root: exact on squares of rationals, otherwise rounded down to
    a multiple of 2^-64. *)
Definition sqrt (x : float) : float :=
  match x with
  | NaN | NegInf => NaN
  | PosInf => PosInf
  | Fin q =>
      let r := Qred q in
      let a := Qnum r in
      let b := Zpos (Qden r) in
      if a <? 0 then NaN
      else if (Z.sqrt a * Z.sqrt a =? a) && (Z.sqrt b * Z.sqrt b =? b)
      then Fin (Qred (Z.sqrt a # Z.to_pos (Z.sqrt b)))
      else Fin (Qred (Z.sqrt (a * 2 ^ 128 / b) # Z.to_pos (2 ^ 64)))
  end.

Definition sum (xs : list float) : float := fold_left add xs zero.

End Float.

Export Float.

(** ** The NumPy fragment *)

(** A default element, returned when a flat index falls outside the data of
    an array (which an array whose data has the length its shape asks for
    never lets happen). *)
Class Default (A : Type) : Type := default : A.
#[global] Instance default_float : Default float := NaN.
#[global] Instance default_Z : Default Z := 0.
#[global] Instance default_bool : Default bool := false.
#[global] Instance default_nat : Default nat := 0%nat.

Module Np.

(** *** Python sequences: slicing a tuple or list *)

(** The bounds [slice(start, stop).indices(len)] for a step of 1. *)
Definition slice_bound (len : Z) (dflt : Z) (b : option Z) : Z :=
  match b with
  | None => dflt
  | Some s => if s <? 0 then Z.max (s + len) 0 else Z.min s len
  end.

Definition slice_range (len : nat) (start stop : option Z) : nat * nat :=
  let l := Z.of_nat len in
  let lo := slice_bound l 0 start in
  let hi := slice_bound l l stop in
  (Z.to_nat lo, Z.to_nat (hi - lo)).

(** [t[start:stop]] on a tuple. *)
Definition py_slice {A : Type} (t : list A) (start stop : option Z) : list A :=
  let '(lo, n) := slice_range (length t) start stop in
  firstn n (skipn lo t).

(** [(x,) * k]: empty when [k] is not positive. *)
Definition tuple_mul {A : Type} (x : A) (k : Z) : list A := repeat x (Z.to_nat k).

(** [range(k)]. *)
Definition range (k : Z) : list Z := map Z.of_nat (seq 0 (Z.to_nat k)).

(** *** Arrays *)

Record ndarray (A : Type) : Type := mk_ndarray {
  shape : list nat;
  data : list A
}.

Arguments mk_ndarray {A} shape data.

Definition size (sh : list nat) : nat := fold_right Nat.mul 1%nat sh.

Definition same_shape (s t : list nat) : bool :=
  if list_eq_dec Nat.eq_dec s t then true else false.

Definition ndim {A : Type} (a : ndarray A) : Z := Z.of_nat (length (shape a)).

Definition get {A : Type} `{Default A} (d : list A) (i : nat) : A := nth i d default.

Definition tabulate {A : Type} (n : nat) (f : nat -> A) : list A := map f (seq 0 n).

(** Row-major coordinates of a flat index, and back. *)
Fixpoint unravel (sh : list nat) (i : nat) : list nat :=
  match sh with
  | [] => []
  | _ :: sh' => (i / size sh')%nat :: unravel sh' (i mod size sh')
  end.

Fixpoint ravel (sh : list nat) (idx : list nat) : nat :=
  match sh, idx with
  | _ :: sh', j :: idx' => (j * size sh' + ravel sh' idx')%nat
  | _, _ => 0%nat
  end.

Definition scalar {A : Type} (x : A) : ndarray A := mk_ndarray [] [x].
Definition vector {A : Type} (xs : list A) : ndarray A := mk_ndarray [length xs] xs.

(** [np.zeros(shape)] and, for any fill value, [np.full]. *)
Definition full {A : Type} (sh : list nat) (x : A) : ndarray A :=
  mk_ndarray sh (repeat x (size sh)).
Definition zeros (sh : list nat) : ndarray float := full sh Float.zero.

Definition map_arr {A B : Type} (f : A -> B) (a : ndarray A) : ndarray B :=
  mk_ndarray (shape a) (map f (data a)).

(** [np.array(t)] for a tuple of integers such as a shape. *)
Definition of_shape (t : list nat) : ndarray Z := vector (map Z.of_nat t).

(** *** Broadcasting *)

Definition shape_error : exn :=
  ValueError "operands could not be broadcast together"%string.

(** Shapes aligned at their last axis; [rev]ersed shapes are zipped. *)
Fixpoint broadcast_rev (r1 r2 : list nat) : result (list nat) :=
  match r1, r2 with
  | [], r | r, [] => Ok r
  | a :: r1', b :: r2' =>
      rest <- broadcast_rev r1' r2' ;;
      if (a =? b)%nat then Ok (a :: rest)
      else if (a =? 1)%nat then Ok (b :: rest)
      else if (b =? 1)%nat then Ok (a :: rest)
      else Raise shape_error
  end.

Definition broadcast_shapes (s1 s2 : list nat) : result (list nat) :=
  r <- broadcast_rev (rev s1) (rev s2) ;; Ok (rev r).

(** The flat index in an operand of shape [s] of the element that lands
    at flat index [i] of the broadcast result of shape [out]. *)
Definition bsrc (s out : list nat) (i : nat) : nat :=
  let m := skipn (length out - length s) (unravel out i) in
  ravel s (map (fun dm => if (fst dm =? 1)%nat then 0%nat else snd dm) (combine s m)).

Definition broadcast2 {A B C : Type} `{Default A} `{Default B}
    (f : A -> B -> C) (a : ndarray A) (b : ndarray B) : result (ndarray C) :=
  out <- broadcast_shapes (shape a) (shape b) ;;
  Ok (mk_ndarray out
        (tabulate (size out)
           (fun i => f (get (data a) (bsrc (shape a) out i))
                       (get (data b) (bsrc (shape b) out i))))).

(** The value assigned to a slice must broadcast to exactly the shape of
    the slice.  (NumPy also drops leading axes of length 1 of the value;
    the values assigned here have the shape of their slice.) *)
Definition broadcast_to {A : Type} `{Default A} (v : ndarray A) (target : list nat)
  : result (ndarray A) :=
  out <- broadcast_shapes (shape v) target ;;
  if same_shape out target
  then Ok (mk_ndarray target
             (tabulate (size target) (fun i => get (data v) (bsrc (shape v) target i))))
  else Raise (ValueError "could not broadcast input array"%string).

(** *** Basic indexing: integers and slices *)

Inductive index : Type :=
| Int (k : Z)
| Slice (start stop : option Z).

(** [slice(None,None,None)], [slice(0,-1,None)], [slice(1,None,None)]. *)
Definition whole : index := Slice None None.
Definition start_ : index := Slice (Some 0) (Some (-1)).
Definition end_ : index := Slice (Some 1) None.

(** What an index selects along one axis: the first position, the number
    of positions, and whether the axis survives in the result. *)
Record axis_sel : Type := mk_sel { lo : nat; len : nat; keep : bool }.

Fixpoint plan (sh : list nat) (ix : list index) : result (list axis_sel) :=
  match sh, ix with
  | [], _ => Ok []
  | d :: sh', [] =>
      rest <- plan sh' [] ;; Ok (mk_sel 0 d true :: rest)
  | d :: sh', Int k :: ix' =>
      let dz := Z.of_nat d in
      if (- dz <=? k) && (k <? dz)
      then rest <- plan sh' ix' ;;
           Ok (mk_sel (Z.to_nat (if k <? 0 then k + dz else k)) 1 false :: rest)
      else Raise (IndexError "index is out of bounds for axis"%string)
  | d :: sh', Slice a b :: ix' =>
      let '(l, n) := slice_range d a b in
      rest <- plan sh' ix' ;; Ok (mk_sel l n true :: rest)
  end.

Definition checked_plan (sh : list nat) (ix : list index) : result (list axis_sel) :=
  if (length sh <? length ix)%nat
  then Raise (IndexError "too many indices for array"%string)
  else plan sh ix.

Definition selected_shape (p : list axis_sel) : list nat :=
  map len (filter keep p).

(** Coordinates in the indexed array of the element at coordinates [m] of
    the selection. *)
Fixpoint src_coords (p : list axis_sel) (m : list nat) : list nat :=
  match p with
  | [] => []
  | s :: p' =>
      if keep s
      then match m with
           | j :: m' => (lo s + j)%nat :: src_coords p' m'
           | [] => lo s :: src_coords p' []
           end
      else lo s :: src_coords p' m
  end.

(** Coordinates in the selection of the element at coordinates [m] of the
    indexed array, when the selection holds it. *)
Fixpoint dst_coords (p : list axis_sel) (m : list nat) : option (list nat) :=
  match p, m with
  | s :: p', j :: m' =>
      if (lo s <=? j)%nat && (j <? lo s + len s)%nat
      then match dst_coords p' m' with
           | Some r => Some (if keep s then (j - lo s)%nat :: r else r)
           | None => None
           end
      else None
  | _, _ => Some []
  end.

(** [a[ix]] *)
Definition getitem {A : Type} `{Default A} (a : ndarray A) (ix : list index)
  : result (ndarray A) :=
  p <- checked_plan (shape a) ix ;;
  let out := selected_shape p in
  Ok (mk_ndarray out
        (tabulate (size out)
           (fun i => get (data a) (ravel (shape a) (src_coords p (unravel out i)))))).

(** [a[ix] = v] *)
Definition setitem {A : Type} `{Default A} (a : ndarray A) (ix : list index)
    (v : ndarray A) : result (ndarray A) :=
  p <- checked_plan (shape a) ix ;;
  let target := selected_shape p in
  v' <- broadcast_to v target ;;
  Ok (mk_ndarray (shape a)
        (tabulate (size (shape a))
           (fun i =>
              match dst_coords p (unravel (shape a) i) with
              | Some r => get (data v') (ravel target r)
              | None => get (data a) i
              end))).

(** *** Reshaping and transposition *)

(** [a.reshape(new)] for a shape without -1. *)
Definition reshape {A : Type} (a : ndarray A) (new : list nat) : result (ndarray A) :=
  if (size new =? size (shape a))%nat
  then Ok (mk_ndarray new (data a))
  else Raise (ValueError "cannot reshape array"%string).

(** [a.reshape(a.shape[0], -1)] *)
Definition reshape_rows {A : Type} (a : ndarray A) : result (ndarray A) :=
  match shape a with
  | [] => Raise (IndexError "tuple index out of range"%string)
  | d0 :: rest =>
      if (d0 =? 0)%nat
      then Raise (ValueError "cannot reshape array of size 0"%string)
      else Ok (mk_ndarray [d0; size rest] (data a))
  end.

(** [a.T]: the axes reversed. *)
Definition transpose {A : Type} `{Default A} (a : ndarray A) : ndarray A :=
  let out := rev (shape a) in
  mk_ndarray out
    (tabulate (size out)
       (fun i => get (data a) (ravel (shape a) (rev (unravel out i))))).

(** [a[:, None]] for a one-dimensional [a]. *)
Definition column {A : Type} (a : ndarray A) : result (ndarray A) :=
  match shape a with
  | [] => Raise (IndexError "too many indices for array"%string)
  | d :: rest => Ok (mk_ndarray (d :: 1%nat :: rest) (data a))
  end.

(** *** Reductions of a two-dimensional array *)

Definition axis_error : exn := ValueError "axis is out of bounds for array"%string.

(** The rows [a[j, :]]; the reductions below are only applied to the
    two-dimensional result of [reshape_rows]. *)
Definition rows {A : Type} `{Default A} (a : ndarray A) : result (list (list A)) :=
  match shape a with
  | [r; c] =>
      Ok (map (fun j => tabulate c (fun k => get (data a) (j * c + k)%nat)) (seq 0 r))
  | _ => Raise axis_error
  end.

(** The columns [a[:, k]]. *)
Definition columns {A : Type} `{Default A} (a : ndarray A) : result (list (list A)) :=
  match shape a with
  | [r; c] =>
      Ok (map (fun k => tabulate r (fun j => get (data a) (j * c + k)%nat)) (seq 0 c))
  | _ => Raise axis_error
  end.

Definition empty_reduction : exn :=
  ValueError "zero-size array to reduction operation which has no identity"%string.

Definition min_list (xs : list float) : result float :=
  match xs with
  | [] => Raise empty_reduction
  | x :: rest => Ok (fold_left Float.minimum rest x)
  end.

Definition max_list (xs : list float) : result float :=
  match xs with
  | [] => Raise empty_reduction
  | x :: rest => Ok (fold_left Float.maximum rest x)
  end.

(** [np.min(a, 1)] and [np.max(a, 1)] *)
Definition min_axis1 (a : ndarray float) : result (ndarray float) :=
  rs <- rows a ;; ms <- mapM min_list rs ;; Ok (vector ms).

Definition max_axis1 (a : ndarray float) : result (ndarray float) :=
  rs <- rows a ;; ms <- mapM max_list rs ;; Ok (vector ms).

Definition mean (xs : list float) : float :=
  Float.div (Float.sum xs) (Float.of_int (Z.of_nat (length xs))).

(** The standard deviation of one row: the root of the mean squared
    deviation from the mean. *)
Definition std_list (xs : list float) : float :=
  let m := mean xs in
  let dev := map (fun x => Float.sub x m) xs in
  Float.sqrt (mean (map (fun d => Float.mul d d) dev)).

(** [np.std(a, 1)] *)
Definition std_axis1 (a : ndarray float) : result (ndarray float) :=
  rs <- rows a ;; Ok (vector (map std_list rs)).

(** [np.prod(a, 0)] *)
Definition prod_axis0 (a : ndarray float) : result (ndarray float) :=
  cs <- columns a ;;
  Ok (vector (map (fun c => fold_left Float.mul c Float.one) cs)).

(** [np.any(np.isnan(a))] *)
Definition any_isnan (a : ndarray float) : bool := existsb Float.isnan (data a).

(** *** The builtin [any] over an array *)

Definition truth (r : list bool) : result bool :=
  match r with
  | [] => Ok false
  | [b] => Ok b
  | _ =>
      Raise (ValueError
               "the truth value of an array with more than one element is ambiguous"%string)
  end.

Fixpoint any_items (items : list (list bool)) : result bool :=
  match items with
  | [] => Ok false
  | r :: rest => t <- truth r ;; if t then Ok true else any_items rest
  end.

(** [any(a)]: iterates over the first axis, stopping at the first true
    item. *)
Definition py_any (a : ndarray bool) : result bool :=
  match shape a with
  | [] => Raise (TypeError "iteration over a 0-d array"%string)
  | d :: rest =>
      let s := size rest in
      any_items (map (fun j => firstn s (skipn (j * s) (data a))) (seq 0 d))
  end.

(** *** Integer-array indexing *)

Definition normalize_index (d : nat) (k : Z) : option nat :=
  let dz := Z.of_nat d in
  if (- dz <=? k) && (k <? dz)
  then Some (Z.to_nat (if k <? 0 then k + dz else k))
  else None.

(** [a[(slice(None),)*npre + tuple(ix)]] for a two-dimensional integer
    array [ix] of shape [(n, P)]: its rows index the axes [npre],
    [npre+1], ... of [a] point by point, and the axis of the points takes
    their place in the result.  ([ix] is two-dimensional wherever the
    interpolators build it.) *)
Definition take_points {A : Type} `{Default A} (a : ndarray A) (npre : Z)
    (ix : ndarray Z) : result (ndarray A) :=
  match shape ix with
  | [n; P] =>
      let pre := Z.to_nat npre in
      if (n =? 0)%nat then getitem a (tuple_mul whole npre)
      else if (length (shape a) <? pre + n)%nat
      then Raise (IndexError "too many indices for array"%string)
      else
        let dims := firstn n (skipn pre (shape a)) in
        let at_ (ax p : nat) :=
          normalize_index (nth ax dims 0%nat) (get (data ix) (ax * P + p)%nat) in
        if forallb
             (fun ax =>
                forallb (fun p => match at_ ax p with Some _ => true | None => false end)
                  (seq 0 P))
             (seq 0 n)
        then
          let out := firstn pre (shape a) ++ [P] ++ skipn (pre + n) (shape a) in
          Ok (mk_ndarray out
                (tabulate (size out)
                   (fun i =>
                      let m := unravel out i in
                      let p := nth pre m 0%nat in
                      get (data a)
                        (ravel (shape a)
                           (firstn pre m
                            ++ map (fun ax => match at_ ax p with Some j => j | None => 0%nat end)
                                 (seq 0 n)
                            ++ skipn (S pre) m)))))
        else Raise (IndexError "index is out of bounds for axis"%string)
  | _ => Raise (IndexError "only a two-dimensional index array is supported"%string)
  end.

(** [a.reshape(d0, -1)] *)
Definition reshape_infer {A : Type} (a : ndarray A) (d0 : nat) : result (ndarray A) :=
  let total := size (shape a) in
  if (d0 =? 0)%nat
  then Raise (ValueError "cannot reshape array of size 0"%string)
  else if (total mod d0 =? 0)%nat
  then Ok (mk_ndarray [d0; (total / d0)%nat] (data a))
  else Raise (ValueError "cannot reshape array"%string).

(** [a.shape[k]] for a non-negative [k]. *)
Definition shape_at {A : Type} (a : ndarray A) (k : nat) : result nat :=
  match nth_error (shape a) k with
  | Some d => Ok d
  | None => Raise (IndexError "tuple index out of range"%string)
  end.

(** Attributes of an array that are integers; any other name is not an
    attribute of [ndarray]. *)
Definition ndarray_attr {A : Type} (a : ndarray A) (name : string) : result Z :=
  if String.eqb name "ndim"%string then Ok (ndim a)
  else if String.eqb name "size"%string then Ok (Z.of_nat (size (shape a)))
  else Raise (AttributeError name).

(** [res += term] *)
Definition iadd (res term : ndarray float) : result (ndarray float) :=
  r <- broadcast2 Float.add res term ;;
  if same_shape (shape r) (shape res) then Ok r
  else Raise (ValueError "non-broadcastable output operand"%string).

(** [np.zeros(dims)] for dimensions computed as integers. *)
Definition zeros_of (dims : list Z) : result (ndarray float) :=
  if forallb (fun d => 0 <=? d) dims then Ok (zeros (map Z.to_nat dims))
  else Raise (ValueError "negative dimensions are not allowed"%string).

End Np.

Export Np.

(** ** Objects: instances as attribute maps *)

Inductive value : Type :=
| VInt (k : Z)
| VArr (a : ndarray float).

Definition object : Type := list (string * value).

(** [self.name = v] *)
Definition setattr (self : object) (name : string) (v : value) : object :=
  (name, v) :: filter (fun kv => negb (String.eqb (fst kv) name)) self.

Definition getattr (self : object) (name : string) : result value :=
  match find (fun kv => String.eqb (fst kv) name) self with
  | Some kv => Ok (snd kv)
  | None => Raise (AttributeError name)
  end.

Definition attr_int (self : object) (name : string) : result Z :=
  v <- getattr self name ;;
  match v with
  | VInt k => Ok k
  | VArr _ => Raise (TypeError name)
  end.

Definition attr_arr (self : object) (name : string) : result (ndarray float) :=
  v <- getattr self name ;;
  match v with
  | VArr a => Ok a
  | VInt _ => Raise (TypeError name)
  end.

(** ** The finite-difference helpers *)

(** [lin_derivs_forward(y, npre)] *)
Definition lin_derivs_forward (y : ndarray float) (npre : Z) : result (ndarray float) :=
  let nin := ndim y - npre in
  let ys := zeros (tuple_mul 2%nat nin ++ shape y) in
  ys <- setitem ys (tuple_mul (Int 0) nin) y ;;
  ys <- foldM (fun ys i =>
           let target := tuple_mul whole i ++ [Int 1] ++ tuple_mul (Int 0) (nin - i - 1) in
           let source := tuple_mul whole i ++ [Int 0] ++ tuple_mul (Int 0) (nin - i - 1) in
           let cells1 := tuple_mul whole (npre + i) ++ [start_] ++ tuple_mul whole (nin - i - 1) in
           let cells2 := tuple_mul whole (npre + i) ++ [end_] ++ tuple_mul whole (nin - i - 1) in
           a <- getitem ys (source ++ cells2) ;;
           b <- getitem ys (source ++ cells1) ;;
           d <- broadcast2 Float.sub a b ;;
           setitem ys (target ++ cells1) d)
        (range nin) ys ;;
  getitem ys (tuple_mul whole (nin + npre) ++ tuple_mul (Slice (Some 0) (Some (-1))) nin).

(** [grad_forward(y, npre)] *)
Definition grad_forward (y : ndarray float) (npre : Z) : result (ndarray float) :=
  let nin := ndim y - npre in
  dy <- zeros_of (nin :: map Z.of_nat (shape y)) ;;
  dy <- foldM (fun dy i =>
           let source := tuple_mul whole i ++ [Int 0] ++ tuple_mul (Int 0) (nin - i - 1) in
           let cells1 := tuple_mul whole (npre + i) ++ [start_] ++ tuple_mul whole (nin - i - 1) in
           let cells2 := tuple_mul whole (npre + i) ++ [end_] ++ tuple_mul whole (nin - i - 1) in
           a <- getitem y (source ++ cells2) ;;
           b <- getitem y (source ++ cells1) ;;
           d <- broadcast2 Float.sub a b ;;
           setitem dy (Int i :: cells1) d)
        (range nin) dy ;;
  getitem dy ([Slice None None] ++ tuple_mul (Slice None (Some (-1))) (ndim dy - 1)).

(** ** The interpolator classes *)

(** A class that [build] can drive: a constructor from the box and the
    samples, and the call of an instance on a batch of points.  Extra
    constructor arguments ([*args], [**kwargs]) are part of the class. *)
Record interpolator_class : Type := mk_class {
  construct : ndarray float -> ndarray float -> result object;
  evaluate : object -> ndarray float -> result (ndarray float)
}.

(** [np.array(self.ys.shape[-self.n:])]: the number of cells along each
    input axis. *)
Definition cells_of (self : object) : result (ndarray Z) :=
  ys <- attr_arr self "ys" ;;
  n <- attr_int self "n" ;;
  Ok (of_shape (py_slice (shape ys) (Some (- n)) None)).

(** [px = ((flatx.T-self.box[0])/(self.box[1]-self.box[0])*np.array(self.ys.shape[-self.n:])).T] *)
Definition scaled_coords (self : object) (flatx : ndarray float) : result (ndarray float) :=
  box <- attr_arr self "box" ;;
  lo <- getitem box [Int 0] ;;
  off <- broadcast2 Float.sub (transpose flatx) lo ;;
  box <- attr_arr self "box" ;;
  hi <- getitem box [Int 1] ;;
  box <- attr_arr self "box" ;;
  lo' <- getitem box [Int 0] ;;
  width <- broadcast2 Float.sub hi lo' ;;
  rel <- broadcast2 Float.div off width ;;
  cells <- cells_of self ;;
  scaled <- broadcast2 (fun r c => Float.mul r (Float.of_int c)) rel cells ;;
  Ok (transpose scaled).

(** [ix = np.maximum(0,np.minimum(np.array(self.ys.shape[-self.n:])[:,None]-1,ix))] *)
Definition clamp_index (self : object) (ix : ndarray Z) : result (ndarray Z) :=
  cells <- cells_of self ;;
  col <- column cells ;;
  upper <- broadcast2 Z.sub col (scalar 1) ;;
  m <- broadcast2 Z.min upper ix ;;
  broadcast2 Z.max (scalar 0) m.

(** The lines that [ip_linear.__call__] and [ip_grad.__call__] share word
    for word: the points flattened, their scaled coordinates [px], the
    cell index [ix] and the offset [fx] within the cell. *)
Definition locate (self : object) (x : ndarray float)
  : result (ndarray float * ndarray Z * ndarray float) :=
  flatx <- reshape_rows x ;;
  px <- scaled_coords self flatx ;;
  let ix := map_arr (fun v => Float.to_int (Float.floor v)) px in
  ix <- clamp_index self ix ;;
  fx <- broadcast2 (fun p i => Float.sub p (Float.of_int i)) px ix ;;
  Ok (px, ix, fx).

Module ip_linear.

(** [ip_linear.__init__(self, box, y)] *)
Definition init (box y : ndarray float) : result object :=
  let self : object := [] in
  let self := setattr self "box" (VArr box) in
  n <- shape_at box 1 ;;
  n' <- shape_at box 1 ;;
  let self := setattr self "n" (VInt (Z.of_nat n)) in
  let self := setattr self "npre" (VInt (ndim y - Z.of_nat n')) in
  npre <- attr_int self "npre" ;;
  ys <- lin_derivs_forward y npre ;;
  Ok (setattr self "ys" (VArr ys)).

(** [ip_linear.__call__(self, x)] *)
Definition call (self : object) (x : ndarray float) : result (ndarray float) :=
  '(px, ix, fx) <- locate self x ;;
  ys <- attr_arr self "ys" ;;
  n <- attr_int self "n" ;;
  npre <- attr_int self "npre" ;;
  let res := zeros (py_slice (shape ys) (Some n) (Some (n + npre))
                    ++ py_slice (shape fx) (Some 1) (Some 2)) in
  res <- foldM (fun res i =>
           let I := map Z.of_nat (unravel (tuple_mul 2%nat n) (Z.to_nat i)) in
           corner <- getitem ys (map Int I) ;;
           at_cells <- take_points corner npre ix ;;
           Icol <- column (vector I) ;;
           powers <- broadcast2 Float.pow fx Icol ;;
           weight <- prod_axis0 powers ;;
           term <- broadcast2 Float.mul at_cells weight ;;
           iadd res term)
        (range (2 ^ n)) res ;;
  reshape res (py_slice (shape res) None (Some (-1)) ++ py_slice (shape x) (Some 1) None).

Definition class : interpolator_class := mk_class init call.

End ip_linear.

Module ip_grad.

(** [ip_grad.__init__(self, box, y)] *)
Definition init (box y : ndarray float) : result object :=
  let self : object := [] in
  let self := setattr self "box" (VArr box) in
  n <- shape_at box 1 ;;
  n' <- shape_at box 1 ;;
  let self := setattr self "n" (VInt (Z.of_nat n)) in
  let self := setattr self "npre" (VInt (ndim y - Z.of_nat n')) in
  npre <- attr_int self "npre" ;;
  dy <- grad_forward y npre ;;
  let self := setattr self "dy" (VArr dy) in
  nsim <- ndarray_attr y "nsim" ;;
  y' <- getitem y (tuple_mul (Slice None (Some (-1))) nsim) ;;
  Ok (setattr self "y" (VArr y')).

(** [ip_grad.__call__(self, x)] *)
Definition call (self : object) (x : ndarray float) : result (ndarray float) :=
  '(px, ix, fx) <- locate self x ;;
  y <- attr_arr self "y" ;;
  res <- take_points y 0 ix ;;
  n <- attr_int self "n" ;;
  res <- foldM (fun res i =>
           dy <- attr_arr self "dy" ;;
           g <- take_points dy 0 ix ;;
           fxi <- getitem fx [Int i] ;;
           term <- broadcast2 Float.mul g fxi ;;
           iadd res term)
        (range n) res ;;
  reshape res (py_slice (shape res) None (Some (-1)) ++ py_slice (shape x) (Some 1) None).

Definition class : interpolator_class := mk_class init call.

End ip_grad.

Module ip_ndimage.

(** [Interpolator.__init__(self, box, y, *args, **kwargs)], which
    [ip_ndimage] inherits.  The extra arguments are only handed on to the
    kernel; they are part of [interpol] below. *)
Definition init (box y : ndarray float) : result object :=
  let self : object := [] in
  let self := setattr self "box" (VArr box) in
  Ok (setattr self "y" (VArr y)).

(** [ix = ((x.T-self.box[0])/(self.box[1]-self.box[0])*(np.array(self.y.shape[1:])-1)).T] *)
Definition sample_index (self : object) (x : ndarray float) : result (ndarray float) :=
  box <- attr_arr self "box" ;;
  lo <- getitem box [Int 0] ;;
  off <- broadcast2 Float.sub (transpose x) lo ;;
  box <- attr_arr self "box" ;;
  hi <- getitem box [Int 1] ;;
  box <- attr_arr self "box" ;;
  lo' <- getitem box [Int 0] ;;
  width <- broadcast2 Float.sub hi lo' ;;
  rel <- broadcast2 Float.div off width ;;
  y <- attr_arr self "y" ;;
  last <- broadcast2 Z.sub (of_shape (py_slice (shape y) (Some 1) None)) (scalar 1) ;;
  scaled <- broadcast2 (fun r c => Float.mul r (Float.of_int c)) rel last ;;
  Ok (transpose scaled).

(** [ip_ndimage.__call__(self, x)]; [interpol y ix] stands for
    [utils.interpol(self.y, ix, *self.args, **self.kwargs)], a kernel
    outside this file. *)
Definition call (interpol : ndarray float -> ndarray float -> result (ndarray float))
    (self : object) (x : ndarray float) : result (ndarray float) :=
  ix <- sample_index self x ;;
  y <- attr_arr self "y" ;;
  interpol y ix.

Definition class (interpol : ndarray float -> ndarray float -> result (ndarray float))
  : interpolator_class := mk_class init (call interpol).

End ip_ndimage.

(** ** The sampling grid *)

(** 64-bit two's complement wrap-around of NumPy's integer arithmetic. *)
Definition wrap64 (z : Z) : Z := (z + 2 ^ 63) mod 2 ^ 64 - 2 ^ 63.

(** [np.product(n)] on an integer array. *)
Definition np_product (n : list Z) : Z :=
  fold_left (fun acc k => wrap64 (acc * k)) n 1.

(** Modelled from the spec: [utils.grid], which is not among the sources.
    The mesh divides the box evenly into [n[a]] points along axis [a], both
    end points included, and is laid out as an array of shape
    [(ndim_in, n[0], ..., n[k-1])] whose entry [[a, i0, ..., ik-1]] is the
    coordinate along axis [a] of the point of index [(i0, ..., ik-1)].  An
    array of 8-byte numbers whose size in bytes does not fit a signed 64-bit
    integer cannot be created. *)
Definition grid (box : ndarray float) (n : list Z) : result (ndarray float) :=
  if negb (forallb (fun k => 0 <=? k) n)
  then Raise (ValueError "negative dimensions are not allowed")
  else if 2 ^ 63 <=? 8 * Z.of_nat (length n) * fold_right Z.mul 1 n
  then Raise (ValueError "array is too big")
  else
    lo <- getitem box [Int 0] ;;
    hi <- getitem box [Int 1] ;;
    width <- broadcast2 Float.sub hi lo ;;
    if negb (same_shape (shape width) [length n]) then Raise shape_error
    else
      let out := length n :: map Z.to_nat n in
      Ok (mk_ndarray out
            (tabulate (size out)
               (fun i =>
                  match unravel out i with
                  | a :: m =>
                      Float.add
                        (Float.div
                           (Float.mul (Float.of_int (Z.of_nat (nth a m 0%nat)))
                              (get (data width) a))
                           (Float.of_int (nth a n 0 - 1)))
                        (get (data lo) a)
                  | [] => NaN
                  end))).

(** ** The driver *)

(** What a run of [build] can see and change outside its own variables:
    the number of times the clock has been read, and the batches of points
    handed to the target function, the latest first. *)
Record world : Type := mk_world {
  ticks : nat;
  samples : list (ndarray float)
}.

Inductive outcome (A : Type) : Type :=
| Returns (a : A)
| Raises (e : exn)
| OutOfFuel.

Arguments Returns {A} a.
Arguments Raises {A} e.
Arguments OutOfFuel {A}.

Definition M (A : Type) : Type := world -> outcome A * world.

Definition ret {A : Type} (a : A) : M A := fun w => (Returns a, w).

Definition raise {A : Type} (e : exn) : M A := fun w => (Raises e, w).

Definition bindM {A B : Type} (m : M A) (k : A -> M B) : M B :=
  fun w =>
    match m w with
    | (Returns a, w') => k a w'
    | (Raises e, w') => (Raises e, w')
    | (OutOfFuel, w') => (OutOfFuel, w')
    end.

Definition lift {A : Type} (r : result A) : M A :=
  match r with
  | Ok a => ret a
  | Raise e => raise e
  end.

Notation "x <~ m ;; k" := (bindM m (fun x => k))
  (at level 61, m at next level, right associativity).
Notation "' p <~ m ;; k" := (bindM m (fun p => k))
  (at level 61, p pattern, m at next level, right associativity).

(** [for x in xs], in the monad of the driver. *)
Fixpoint for_each {A S : Type} (body : A -> S -> M S) (xs : list A) (st : S) : M S :=
  match xs with
  | [] => ret st
  | x :: rest => st' <~ body x st ;; for_each body rest st'
  end.

(** The local variables of [build] that its loop changes. *)
Record bstate : Type := mk_state {
  st_n : list Z;
  st_x : ndarray float;
  st_ip : object;
  st_errs : list (ndarray float);
  st_obox : ndarray float * ndarray float;
  st_depth : Z;
  st_nok : Z
}.

(** What [build] returns: the interpolator alone, or the pair of the
    interpolator and the output box. *)
Inductive retval : Type :=
| RetIp (ip : object)
| RetPair (ip : object) (obox : ndarray float).

Definition size_message : string := "Maximum refinement mesh size exceeded".
Definition time_message : string := "Maximum refinement time exceeded".
Definition invalid_message : string := "Function to interpolate returned invalid value".

(** [l[i]] and [l[i] = v] on a Python list or a one-dimensional array,
    for [i] from [range(len(l))]. *)
Definition item {A : Type} (l : list A) (i : Z) : result A :=
  match nth_error l (Z.to_nat i) with
  | Some v => if 0 <=? i then Ok v else Raise (IndexError "index out of range")
  | None => Raise (IndexError "index out of range")
  end.

Fixpoint replace_nth {A : Type} (l : list A) (i : nat) (v : A) : list A :=
  match l, i with
  | [], _ => []
  | _ :: rest, O => v :: rest
  | x :: rest, S j => x :: replace_nth rest j v
  end.

Definition set_item {A : Type} (l : list A) (i : Z) (v : A) : result (list A) :=
  if (0 <=? i) && (i <? Z.of_nat (length l)) then Ok (replace_nth l (Z.to_nat i) v)
  else Raise (IndexError "index out of range").

(** [np.array(obox)] for the two-element list [obox]. *)
Definition stack2 (ob : ndarray float * ndarray float) : result (ndarray float) :=
  if same_shape (shape (fst ob)) (shape (snd ob))
  then Ok (mk_ndarray (2%nat :: shape (fst ob)) (data (fst ob) ++ data (snd ob)))
  else Raise (ValueError "setting an array element with a sequence").

Section Build.

(** The clock: [clock k] is what the [k]-th call of [time.time()] returns. *)
Variable clock : nat -> Q.
(** The arguments of [build]; [box] and [errlim] are given as arrays of
    floats ([np.asfarray]). *)
Variable func : ndarray float -> ndarray float.
Variable interpolator : interpolator_class.
Variable box : ndarray float.
Variable errlim : ndarray float.
Variable maxsize : option Z.
Variable maxtime : option Q.
Variable return_obox : bool.

(** [time.time()] *)
Definition time_time : M Q :=
  fun w => (Returns (clock (ticks w)), mk_world (S (ticks w)) (samples w)).

(** [func(x)] *)
Definition call_func (x : ndarray float) : M (ndarray float) :=
  fun w => (Returns (func x), mk_world (ticks w) (x :: samples w)).

(** [any(e > errlim)] *)
Definition exceeds (e : ndarray float) : result bool :=
  c <- broadcast2 Float.gtb e errlim ;; py_any c.

(** [maxsize and np.product(n) > maxsize] *)
Definition size_exceeded (n : list Z) : bool :=
  match maxsize with
  | None => false
  | Some m => negb (m =? 0) && (m <? np_product n)
  end.

(** [if maxtime and time.time() - t0 > maxtime: raise OverflowError(...)] *)
Definition time_check (t0 : Q) : M unit :=
  match maxtime with
  | None => ret tt
  | Some m =>
      if Qeq_bool m 0 then ret tt
      else
        t <~ time_time ;;
        if Float.Qltb m (t - t0) then raise (OverflowError time_message) else ret tt
  end.

(** The body of [for i in range(idim)]. *)
Definition axis_step (t0 : Q) (i : Z) (st : bstate) : M bstate :=
  e <~ lift (item (st_errs st) i) ;;
  tested <~ lift (exceeds e) ;;
  if tested then
    _ <~ time_check t0 ;;
    let nnew := st_n st in
    ni <~ lift (item nnew i) ;;
    nnew <~ lift (set_item nnew i (wrap64 (wrap64 (ni * 2) + 1))) ;;
    x <~ lift (grid box nnew) ;;
    yinter <~ lift (evaluate interpolator (st_ip st) x) ;;
    ytrue <~ call_func x ;;
    if any_isnan ytrue then raise (ValueError invalid_message)
    else
      diff <~ lift (broadcast2 Float.sub ytrue yinter) ;;
      nout <~ lift (shape_at ytrue 0) ;;
      resid <~ lift (reshape_infer diff nout) ;;
      err <~ lift (std_axis1 resid) ;;
      bad <~ lift (exceeds err) ;;
      '(ip, n, nok) <~
        (if bad
         then ip <~ lift (construct interpolator box ytrue) ;; ret (ip, nnew, st_nok st)
         else ret (st_ip st, st_n st, st_nok st + 1)) ;;
      errs <~ lift (set_item (st_errs st) i err) ;;
      flat <~ lift (reshape_rows ytrue) ;;
      lows <~ lift (min_axis1 flat) ;;
      obox0 <~ lift (broadcast2 Float.minimum (fst (st_obox st)) lows) ;;
      flat <~ lift (reshape_rows ytrue) ;;
      highs <~ lift (max_axis1 flat) ;;
      obox1 <~ lift (broadcast2 Float.maximum obox0 highs) ;;
      ret (mk_state n x ip errs (obox0, obox1) (st_depth st) nok)
  else
    ret (mk_state (st_n st) (st_x st) (st_ip st) (st_errs st) (st_obox st)
           (st_depth st) (st_nok st + 1)).

(** One turn of [while True]: the state after it and whether the loop
    was left ([if nok >= idim: break]). *)
Definition round (idim : Z) (t0 : Q) (st : bstate) : M (bstate * bool) :=
  let depth := st_depth st + 1 in
  if size_exceeded (st_n st) then raise (OverflowError size_message)
  else
    let st := mk_state (st_n st) (st_x st) (st_ip st) (st_errs st) (st_obox st) depth 0 in
    st <~ for_each (axis_step t0) (range idim) st ;;
    ret (st, idim <=? st_nok st).

(** [while True], for at most [fuel] turns. *)
Fixpoint build_loop (fuel : nat) (idim : Z) (t0 : Q) (st : bstate) : M bstate :=
  match fuel with
  | O => fun w => (OutOfFuel, w)
  | S fuel' =>
      '(st', done) <~ round idim t0 st ;;
      if done then ret st' else build_loop fuel' idim t0 st'
  end.

(** The lines before the loop. *)
Definition build_init : M (Z * Q * bstate) :=
  idim <~ lift (shape_at box 1) ;;
  let idim := Z.of_nat idim in
  let n := tuple_mul 4 idim in
  x <~ lift (grid box n) ;;
  let obox := (scalar PosInf, scalar NegInf) in
  t0 <~ time_time ;;
  y <~ call_func x ;;
  ip <~ lift (construct interpolator box y) ;;
  let errs := tuple_mul (scalar PosInf) idim in
  ret (idim, t0, mk_state n x ip errs obox 0 0).

(** The variables of [build] when its loop is left. *)
Definition build_state (fuel : nat) : M bstate :=
  '(idim, t0, st) <~ build_init ;;
  build_loop fuel idim t0 st.

(** [build(func, interpolator, box, errlim, maxsize, maxtime, return_obox)];
    the last line is
    [return ip if not return_obox else ip, np.array(obox)]. *)
Definition build (fuel : nat) : M retval :=
  st <~ build_state fuel ;;
  obox <~ lift (stack2 (st_obox st)) ;;
  ret (RetPair (if negb return_obox then st_ip st else st_ip st) obox).

End Build.

(** ** Properties of the resolution vector *)

(** The resolution after [k] doublings [n -> 2n+1] of the initial 4. *)
Definition doubling (k : nat) : Z := Nat.iter k (fun n => 2 * n + 1) 4.

Definition on_orbit (v : Z) : Prop := exists k, v = doubling k.

(** Every resolution is a doubling of 4 and small enough for the size of
    the mesh in bytes to fit a signed 64-bit integer. *)
Definition mesh_inv (n : list Z) : Prop :=
  Forall (fun v => on_orbit v /\ v < 2 ^ 60) n.

(** An exception that is not the [OverflowError] of a budget. *)
Definition not_overflow (e : exn) : Prop :=
  match e with
  | OverflowError _ => False
  | _ => True
  end.

(** An interpolator class whose constructor and call never raise
    [OverflowError] themselves. *)
Definition quiet (c : interpolator_class) : Prop :=
  (forall b y e, construct c b y = Raise e -> not_overflow e) /\
  (forall o x e, evaluate c o x = Raise e -> not_overflow e).

(** [raises_with out msg]: the run ended in [OverflowError(msg)]. *)
Definition raises_with {A : Type} (out : outcome A) (msg : string) : bool :=
  match out with
  | Raises (OverflowError m) => String.eqb m msg
  | _ => false
  end.

(** The run returned the interpolator alone, not a pair. *)
Definition returns_ip_alone (out : outcome retval) : bool :=
  match out with
  | Returns (RetIp _) => true
  | _ => false
  end.

(** A batch on which the target function produces a NaN. *)
Definition nan_batch (func : ndarray float -> ndarray float) (x : ndarray float) : bool :=
  any_isnan (func x).

(** All the batches of [l] are free of NaN. *)
Definition clean (func : ndarray float -> ndarray float) (l : list (ndarray float)) : bool :=
  forallb (fun x => negb (nan_batch func x)) l.

(** A computation of the driver for which a NaN is fatal: of the batches
    it hands to the target function, only the latest can hold a NaN, and
    then the computation raises the error of an invalid value. *)
Definition nan_fatal {A : Type} (func : ndarray float -> ndarray float) (m : M A) : Prop :=
  forall w out w',
    m w = (out, w') ->
    exists new,
      samples w' = new ++ samples w /\
      clean func (tl new) = true /\
      (clean func new = false -> out = Raises (ValueError invalid_message)).

(** A computation that does not raise [OverflowError]. *)
Definition safe {A : Type} (r : result A) : Prop :=
  forall e, r = Raise e -> not_overflow e.

(** A computation of the driver that does not end in [OverflowError(msg)]. *)
Definition calm {A : Type} (msg : string) (m : M A) : Prop :=
  forall w out w', m w = (out, w') -> raises_with out msg = false.

(** The interpolator of the state is the one built from the target
    function on the mesh of the state, and that mesh is among the batches
    handed to the target function. *)
Definition built_on_mesh (func : ndarray float -> ndarray float)
    (interpolator : interpolator_class) (box : ndarray float) (st : bstate) (w : world)
  : Prop :=
  exists x,
    grid box (st_n st) = Ok x /\
    construct interpolator box (func x) = Ok (st_ip st) /\
    In x (samples w).

(** ** Properties of arrays and of the cell index *)

(** [a] is a vector of [c] elements, the [j]-th being [h j]. *)
Definition arr1 {A : Type} `{Default A} (a : ndarray A) (c : nat) (h : nat -> A) : Prop :=
  shape a = [c] /\ forall j, (j < c)%nat -> get (data a) j = h j.

(** [a] is a matrix of [r] rows and [c] columns with [g i j] at row [i],
    column [j]. *)
Definition arr2 {A : Type} `{Default A} (a : ndarray A) (r c : nat) (g : nat -> nat -> A)
  : Prop :=
  shape a = [r; c] /\
  forall i j, (i < r)%nat -> (j < c)%nat -> get (data a) (i * c + j)%nat = g i j.




(** ** Inputs used as examples *)

Module Examples.

Definition floats (l : list Z) : list float := map Float.of_int l.

(** A target function given point by point: [f] maps the coordinates of
    a point to the [nout] output values there. *)
Definition pointwise (nout : nat) (f : list float -> list float) (x : ndarray float)
  : ndarray float :=
  match shape x with
  | d :: mesh =>
      let P := size mesh in
      mk_ndarray (nout :: mesh)
        (tabulate (nout * P)
           (fun i =>
              nth (i / P)%nat
                (f (map (fun a => get (data x) (a * P + i mod P)%nat) (seq 0 d))) NaN))
  | [] => scalar NaN
  end.

(** [box = [[0],[1]]] and [box = [[0,0],[1,1]]] *)
Definition box1 : ndarray float := mk_ndarray [2; 1]%nat (floats [0; 1]).
Definition box2 : ndarray float := mk_ndarray [2; 2]%nat (floats [0; 0; 1; 1]).

Definition w0 : world := mk_world 0 [].

(** A clock that advances by one second at every reading. *)
Definition clock0 (k : nat) : Q := inject_Z (Z.of_nat k).

(** [f(x) = 2x + 1] *)
Definition f_lin : ndarray float -> ndarray float :=
  pointwise 1 (fun c => [Float.add (Float.mul (Fin 2) (nth 0 c NaN)) (Fin 1)]).

(** [f(x) = x*x] *)
Definition f_sq : ndarray float -> ndarray float :=
  pointwise 1 (fun c => [Float.mul (nth 0 c NaN) (nth 0 c NaN)]).

(** [f(x, y) = x*(1-x)] *)
Definition f_hump : ndarray float -> ndarray float :=
  pointwise 1 (fun c => [Float.mul (nth 0 c NaN) (Float.sub (Fin 1) (nth 0 c NaN))]).

(** [f(x) = 1/x], infinite at 0 *)
Definition f_recip : ndarray float -> ndarray float :=
  pointwise 1 (fun c => [Float.div (Fin 1) (nth 0 c NaN)]).

(** [f(x) = nan if x == at else 0] *)
Definition f_nan_at (at_ : Q) : ndarray float -> ndarray float :=
  pointwise 1 (fun c =>
                 match nth 0 c NaN with
                 | Fin q => if Qeq_bool q at_ then [NaN] else [Fin 0]
                 | _ => [NaN]
                 end).

Definition tol (q : Q) : ndarray float := vector [Fin q].

Definition is_inf (v : float) : bool :=
  match v with
  | NegInf | PosInf => true
  | _ => false
  end.

(** The variables of [build] when its loop is entered. *)
Definition start (func : ndarray float -> ndarray float) (c : interpolator_class)
    (box : ndarray float) : bstate :=
  match build_init clock0 func c box w0 with
  | (Returns (_, _, st), _) => st
  | _ => mk_state [] (scalar NaN) [] [] (scalar NaN, scalar NaN) 0 0
  end.

Definition world_after_start (func : ndarray float -> ndarray float)
    (c : interpolator_class) (box : ndarray float) : world :=
  snd (build_init clock0 func c box w0).

Definition state_of (r : outcome bstate * world) : bstate :=
  match fst r with
  | Returns st => st
  | _ => mk_state [] (scalar NaN) [] [] (scalar NaN, scalar NaN) 0 0
  end.

(** The first turn of the loop over the axes, for axis 0, with no time
    budget. *)
Definition first_step (func : ndarray float -> ndarray float) (c : interpolator_class)
    (box errlim : ndarray float) : outcome bstate * world :=
  axis_step clock0 func c box errlim None 0 0 (start func c box)
    (world_after_start func c box).

(** The instance of [ip_linear] built from the samples [0, 1, 4, 9] on
    [0,1], its difference tensor, and a batch of five query points, the
    last two outside the box. *)
Definition linear_instance : object :=
  match ip_linear.init box1 (vector (floats [0; 1; 4; 9])) with
  | Ok self => self
  | Raise _ => []
  end.


Definition queries : ndarray float :=
  mk_ndarray [1; 5]%nat [Fin 0; Fin (1 # 2); Fin 1; Fin 5; Fin (-3)].





(** The instance of [ip_ndimage] built from one output channel with the
    samples [0, 1, 4, 9] on [0,1]. *)
Definition ndimage_instance : object :=
  match ip_ndimage.init box1 (mk_ndarray [1; 4]%nat (floats [0; 1; 4; 9])) with
  | Ok self => self
  | Raise _ => []
  end.

End Examples.

(** * Theorems *)

Unset Implicit Arguments.

(** ** The monad of the driver *)

Lemma bindM_returns {A B : Type} (m : M A) (k : A -> M B) w b w' :
  bindM m k w = (Returns b, w') ->
  exists a w1, m w = (Returns a, w1) /\ k a w1 = (Returns b, w').
Proof.
  unfold bindM. destruct (m w) as [[a | e |] w1]; intros H; try discriminate.
  exists a, w1. split; [reflexivity | exact H].
Qed.

Lemma lift_returns {A : Type} (r : result A) w a w' :
  lift r w = (Returns a, w') -> r = Ok a /\ w' = w.
Proof.
  destruct r; unfold lift, ret, raise; intros H; inversion H; subst; auto.
Qed.

Lemma ret_returns {A : Type} (a b : A) w w' :
  ret a w = (Returns b, w') -> b = a /\ w' = w.
Proof. unfold ret. intros H. inversion H. auto. Qed.

Lemma raise_returns {A : Type} (e : exn) w (b : A) w' :
  raise e w = (Returns b, w') -> False.
Proof. unfold raise. intros H. discriminate. Qed.

(** Inversion of a run that returned, down to its elementary steps. *)
Ltac invert_run :=
  repeat match goal with
    | H : bindM _ _ _ = (Returns _, _) |- _ =>
        let a := fresh "a" in
        let w := fresh "w" in
        let H1 := fresh "H" in
        let H2 := fresh "H" in
        apply bindM_returns in H; destruct H as (a & w & H1 & H2)
    | H : lift _ _ = (Returns _, _) |- _ =>
        let E := fresh "E" in
        apply lift_returns in H; destruct H as [E ->]
    | H : ret _ _ = (Returns _, _) |- _ =>
        let E := fresh "E" in
        apply ret_returns in H; destruct H as [E ->];
        try (injection E; clear E; intros); subst
    | H : call_func _ _ _ = (Returns _, _) |- _ =>
        unfold call_func in H; inversion H; subst; clear H
    | H : raise _ _ = (Returns _, _) |- _ =>
        apply raise_returns in H; contradiction
    end.

(** ** The gradient builder and the gradient interpolator *)

Lemma tuple_mul_length {A : Type} (x : A) (k : Z) :
  length (tuple_mul x k) = Z.to_nat k.
Proof. unfold tuple_mul. apply repeat_length. Qed.

Lemma range_pos (k : Z) :
  0 < k -> range k = 0 :: map Z.of_nat (seq 1 (Z.to_nat k - 1)).
Proof.
  intros Hk. unfold range.
  destruct (Z.to_nat k) as [| j] eqn:E; [lia |].
  simpl. now rewrite Nat.sub_0_r.
Qed.

(** C7: on every array with at least one spatial axis, the gradient
    builder does not return a tensor at all: its first forward difference
    indexes [y] with the [nin] leading indices of [source] in front of the
    cell slices, which is more indices than [y] has axes, and raises
    [IndexError]. *)
Theorem grad_forward_too_many_indices (y : ndarray float) (npre : Z) :
  0 <= npre -> npre < ndim y ->
  grad_forward y npre = Raise (IndexError "too many indices for array").
Proof.
  intros Hpre Hlt. unfold grad_forward.
  set (nin := ndim y - npre).
  assert (Hnin : 0 < nin) by (unfold nin; lia).
  assert (Hz : zeros_of (nin :: map Z.of_nat (shape y))
               = Ok (zeros (map Z.to_nat (nin :: map Z.of_nat (shape y))))).
  { unfold zeros_of.
    replace (forallb (fun d => 0 <=? d) (nin :: map Z.of_nat (shape y))) with true;
      [reflexivity |].
    symmetry. apply forallb_forall. intros d [<- | Hd].
    - apply Z.leb_le. lia.
    - apply in_map_iff in Hd. destruct Hd as (k & <- & _). apply Z.leb_le. lia. }
  rewrite Hz. cbn [bind].
  rewrite (range_pos nin Hnin). cbn [foldM].
  unfold getitem at 1. unfold checked_plan.
  replace (length (shape y) <? _)%nat with true; [reflexivity |].
  symmetry. apply Nat.ltb_lt.
  rewrite !length_app, !tuple_mul_length. cbn [length].
  unfold ndim in nin, Hlt. lia.
Qed.

Lemma grad_forward_too_many_indices_witness :
  grad_forward (vector (Examples.floats [0; 1; 4; 9])) 0
  = Raise (IndexError "too many indices for array").
Proof.
  apply grad_forward_too_many_indices; [lia | reflexivity].
Defined.

(** Where the gradient builder does return (no spatial axis), its last
    line has trimmed the output axis: four output values give a tensor of
    shape (0, 3). *)
Example grad_forward_trims_output_axis :
  grad_forward (vector (Examples.floats [0; 1; 4; 9])) 1
  = Ok (mk_ndarray [0; 3]%nat []).
Proof. reflexivity. Qed.

(** C6: the constructor of the gradient interpolator never succeeds,
    whatever the box and the samples: either the gradient builder raises,
    or the attribute [nsim], which no array has, is looked up. *)
Theorem ip_grad_init_never_succeeds (box y : ndarray float) :
  is_ok (ip_grad.init box y) = false.
Proof.
  unfold ip_grad.init.
  destruct (shape_at box 1) as [n |]; cbn; [| reflexivity].
  destruct (grad_forward y (ndim y - Z.of_nat n)); cbn; reflexivity.
Qed.

Example ip_grad_init_on_unit_interval :
  ip_grad.init Examples.box1 (vector (Examples.floats [0; 1; 4; 9]))
  = Raise (IndexError "too many indices for array").
Proof. reflexivity. Qed.

(** An instance with the attributes that [ip_grad.__init__] sets has no
    [ys], the attribute its [__call__] reads. *)
Example ip_grad_call_reads_missing_attribute :
  ip_grad.call
    [("y"%string, VArr (vector (Examples.floats [0; 1; 4])));
     ("dy"%string, VArr (mk_ndarray [1; 3]%nat (Examples.floats [1; 3; 5])));
     ("npre"%string, VInt 0); ("n"%string, VInt 1);
     ("box"%string, VArr Examples.box1)]
    (mk_ndarray [1; 1]%nat [Fin (1 # 2)])
  = Raise (AttributeError "ys").
Proof. reflexivity. Qed.

(** ** The value returned by the driver *)

(** C1: [build] never returns the interpolator alone.  Its last line
    parses as the pair of [(ip if not return_obox else ip)] and
    [np.array(obox)], so the output box is returned also when
    [return_obox] is false, as in the run on [f(x) = 2x+1] below. *)
Theorem build_always_returns_pair :
  (forall clock func interpolator box errlim maxsize maxtime return_obox fuel w,
      returns_ip_alone
        (fst (build clock func interpolator box errlim maxsize maxtime return_obox fuel w))
      = false) /\
  (exists ip,
      fst (build Examples.clock0 Examples.f_lin ip_linear.class Examples.box1
             (Examples.tol (1 # 1000000)) None None false 1 Examples.w0)
      = Returns (RetPair ip (mk_ndarray [2; 1]%nat [Fin 1; Fin 3]))).
Proof.
  split.
  - intros. unfold build, bindM.
    destruct (build_state _ _ _ _ _ _ _ _ _) as [[st | e |] w1]; cbn; try reflexivity.
    destruct (stack2 (st_obox st)); reflexivity.
  - eexists. vm_compute. reflexivity.
Qed.

(** ** One step of the loop over the axes *)

Lemma nth_error_replace_nth {A : Type} (l : list A) (i : nat) (v : A) :
  (i < length l)%nat -> nth_error (replace_nth l i v) i = Some v.
Proof.
  revert i. induction l as [| x l IH]; intros [| i] Hi; cbn in *; try lia; auto.
  apply IH. lia.
Qed.

Lemma item_set_item {A : Type} (l l' : list A) (i : Z) (v : A) :
  set_item l i v = Ok l' -> item l' i = Ok v.
Proof.
  unfold set_item, item. intros H.
  destruct ((0 <=? i) && (i <? Z.of_nat (length l))) eqn:E; [| discriminate].
  inversion H; subst. apply andb_prop in E. destruct E as [E1 E2].
  apply Z.leb_le in E1. apply Z.ltb_lt in E2.
  rewrite nth_error_replace_nth by lia. now rewrite (proj2 (Z.leb_le _ _) E1).
Qed.

(** Reading the clock does not touch the log of the batches. *)
Lemma time_check_samples clock maxtime t0 w (out : outcome unit) w1 :
  time_check clock maxtime t0 w = (out, w1) -> samples w1 = samples w.
Proof.
  unfold time_check, bindM, time_time, ret, raise.
  destruct maxtime as [m |]; [destruct (Qeq_bool m 0) |];
    try destruct (Float.Qltb m _); intros H; inversion H; reflexivity.
Qed.

(** What a step of the loop over the axes did when it returned. *)
Lemma axis_step_returns clock func interpolator box errlim maxtime t0 i st w st' w' :
  axis_step clock func interpolator box errlim maxtime t0 i st w = (Returns st', w') ->
  exists e,
    item (st_errs st) i = Ok e /\
    ((exceeds errlim e = Ok false /\ w' = w /\
      st' = mk_state (st_n st) (st_x st) (st_ip st) (st_errs st) (st_obox st)
              (st_depth st) (st_nok st + 1)) \/
     (exceeds errlim e = Ok true /\
      exists w1 ni nnew x yinter err errs obox0 obox1,
        time_check clock maxtime t0 w = (Returns tt, w1) /\
        item (st_n st) i = Ok ni /\
        set_item (st_n st) i (wrap64 (wrap64 (ni * 2) + 1)) = Ok nnew /\
        grid box nnew = Ok x /\
        evaluate interpolator (st_ip st) x = Ok yinter /\
        w' = mk_world (ticks w1) (x :: samples w1) /\
        any_isnan (func x) = false /\
        set_item (st_errs st) i err = Ok errs /\
        ((exceeds errlim err = Ok false /\
          st' = mk_state (st_n st) x (st_ip st) errs (obox0, obox1) (st_depth st)
                  (st_nok st + 1)) \/
         (exceeds errlim err = Ok true /\
          exists ip, construct interpolator box (func x) = Ok ip /\
            st' = mk_state nnew x ip errs (obox0, obox1) (st_depth st) (st_nok st))))).
Proof.
  intros H. unfold axis_step in H. invert_run.
  match goal with
  | H : exceeds _ ?a = Ok ?t |- _ => exists a; split; [assumption |]; destruct t
  end.
  - right. split; [assumption |]. invert_run.
    match goal with
    | H : (if any_isnan ?y then _ else _) _ = _ |- _ =>
        destruct (any_isnan y) eqn:Hnan; invert_run
    end.
    match goal with
    | H : (let '(_, _) := ?p in _) _ = _ |- _ => destruct p as [[ip n] nok]
    end.
    invert_run.
    match goal with
    | u : unit |- _ => destruct u
    end.
    match goal with
    | H : (if ?b then _ else _) _ = _ |- _ => destruct b; invert_run
    end.
    + do 9 eexists. repeat (split; [eassumption || reflexivity |]).
      right. split; [assumption |].
      eexists. split; [eassumption | reflexivity].
    + do 9 eexists. repeat (split; [eassumption || reflexivity |]).
      left. split; [assumption | reflexivity].
  - left. invert_run. auto.
Qed.

(** C2 (as amended): a step that resamples axis [i] keeps the doubled
    resolution only together with the rebuilt interpolator.  When the
    measured error is within tolerance for all channels, [n] and the
    interpolator are left as they were (the doubled [nnew] is dropped) and
    the axis counts as satisfied; when it exceeds the tolerance, [n]
    becomes [nnew] and the interpolator is rebuilt from the new samples. *)
Theorem axis_step_keeps_or_discards
    clock func interpolator box errlim maxtime t0 i st w st' w' e :
  item (st_errs st) i = Ok e ->
  exceeds errlim e = Ok true ->
  axis_step clock func interpolator box errlim maxtime t0 i st w = (Returns st', w') ->
  exists ni nnew x err,
    item (st_n st) i = Ok ni /\
    set_item (st_n st) i (wrap64 (wrap64 (ni * 2) + 1)) = Ok nnew /\
    grid box nnew = Ok x /\
    samples w' = x :: samples w /\
    item (st_errs st') i = Ok err /\
    ((exceeds errlim err = Ok false /\
      st_n st' = st_n st /\ st_ip st' = st_ip st /\ st_nok st' = st_nok st + 1) \/
     (exceeds errlim err = Ok true /\
      st_n st' = nnew /\ construct interpolator box (func x) = Ok (st_ip st') /\
      st_nok st' = st_nok st)).
Proof.
  intros He Hex H. apply axis_step_returns in H.
  destruct H as (e' & He' & [(Hex' & _) | (_ & H)]).
  { rewrite He in He'. inversion He'; subst. congruence. }
  destruct H as (w1 & ni & nnew & x & yinter & err & errs & obox0 & obox1 & H).
  destruct H as (Ht & Hni & Hnew & Hx & Hy & Hw & Hnan & Herrs & Hcase).
  exists ni, nnew, x, err.
  repeat (split; [assumption |]).
  split; [subst w'; cbn; f_equal; eapply time_check_samples; eassumption |].
  apply item_set_item in Herrs.
  destruct Hcase as [(Hok & ->) | (Hbad & ip & Hip & ->)]; cbn.
  - split; [assumption |]. left. auto.
  - split; [assumption |]. right. auto.
Qed.

Lemma axis_step_keeps_or_discards_witness :
  let errlim := Examples.tol (1 # 1000000) in
  let run := Examples.first_step Examples.f_lin ip_linear.class Examples.box1 errlim in
  let st := Examples.start Examples.f_lin ip_linear.class Examples.box1 in
  let st' := Examples.state_of run in
  exists ni nnew x err,
    item (st_n st) 0 = Ok ni /\
    set_item (st_n st) 0 (wrap64 (wrap64 (ni * 2) + 1)) = Ok nnew /\
    grid Examples.box1 nnew = Ok x /\
    samples (snd run)
    = x :: samples (Examples.world_after_start Examples.f_lin ip_linear.class Examples.box1) /\
    item (st_errs st') 0 = Ok err /\
    ((exceeds errlim err = Ok false /\
      st_n st' = st_n st /\ st_ip st' = st_ip st /\ st_nok st' = st_nok st + 1) \/
     (exceeds errlim err = Ok true /\
      st_n st' = nnew /\
      construct ip_linear.class Examples.box1 (Examples.f_lin x) = Ok (st_ip st') /\
      st_nok st' = st_nok st)).
Proof.
  cbv zeta.
  apply (axis_step_keeps_or_discards Examples.clock0 Examples.f_lin ip_linear.class
           Examples.box1 (Examples.tol (1 # 1000000)) None 0 0
           (Examples.start Examples.f_lin ip_linear.class Examples.box1)
           (Examples.world_after_start Examples.f_lin ip_linear.class Examples.box1)
           _ _ (scalar PosInf));
    vm_compute; reflexivity.
Defined.

(** C2 (as stated) fails: on [f(x) = 2x+1] over [0,1] the 9-point mesh is
    sampled, the error is within tolerance, and the loop is left with the
    resolution still 4, not 9. *)
Lemma within_tolerance_resolution_is_rolled_back :
  exists st w err,
    build_state Examples.clock0 Examples.f_lin ip_linear.class Examples.box1
      (Examples.tol (1 # 1000000)) None None 1 Examples.w0 = (Returns st, w) /\
    map (@shape float) (samples w) = [[1; 9]; [1; 4]]%nat /\
    item (st_errs st) 0 = Ok err /\
    exceeds (Examples.tol (1 # 1000000)) err = Ok false /\
    st_n st = [4] /\ st_n st <> [9].
Proof.
  do 3 eexists.
  split; [vm_compute; reflexivity |].
  split; [reflexivity |].
  split; [reflexivity |].
  split; [reflexivity |].
  split; [reflexivity | discriminate].
Qed.

(** ** The output box *)

(** How a step that resampled an axis updates the output box: the new
    minimum comes from the old minimum and the minima of the batch, and the
    new maximum from the new minimum and the maxima of the batch; the old
    maximum is not read. *)
Lemma axis_step_output_box clock func interpolator box errlim maxtime t0 i st w st' w' e :
  item (st_errs st) i = Ok e ->
  exceeds errlim e = Ok true ->
  axis_step clock func interpolator box errlim maxtime t0 i st w = (Returns st', w') ->
  exists flat lows highs,
    reshape_rows (func (st_x st')) = Ok flat /\
    min_axis1 flat = Ok lows /\
    max_axis1 flat = Ok highs /\
    broadcast2 Float.minimum (fst (st_obox st)) lows = Ok (fst (st_obox st')) /\
    broadcast2 Float.maximum (fst (st_obox st')) highs = Ok (snd (st_obox st')).
Proof.
  intros He Hex H. unfold axis_step in H. rewrite He in H. cbn [lift] in H.
  unfold bindM at 1 in H. unfold ret at 1 in H. rewrite Hex in H. cbn [lift] in H.
  unfold bindM at 1 in H. unfold ret at 1 in H.
  invert_run.
  match goal with
  | H : (if any_isnan ?y then _ else _) _ = _ |- _ =>
      destruct (any_isnan y) eqn:Hnan; invert_run
  end.
  match goal with
  | H : (let '(_, _) := ?p in _) _ = _ |- _ => destruct p as [[ip n] nok]
  end.
  invert_run. cbn [st_x st_obox fst snd].
  match goal with
  | H1 : reshape_rows _ = Ok ?f1, H2 : reshape_rows _ = Ok ?f2 |- _ =>
      assert (f1 = f2) by congruence; subst
  end.
  do 3 eexists. repeat (split; [eassumption |]). eassumption.
Qed.

(** C3: the maximum of the output box can go down.  On [f(x,y) = x*(1-x)]
    over the unit square with a tolerance of 10, the batch of the first
    axis has maximum 1/4 and the output box after it is [(0, 1/4)]; the
    batch of the second axis has maximum 2/9, and since line 58 takes the
    maximum of the new batch with [obox[0]] instead of [obox[1]], the
    output box becomes [(0, 2/9)], which is what [build] returns. *)
Theorem output_box_maximum_shrinks :
  let errlim := Examples.tol 10 in
  let run1 := Examples.first_step Examples.f_hump ip_linear.class Examples.box2 errlim in
  let run2 :=
    axis_step Examples.clock0 Examples.f_hump ip_linear.class Examples.box2 errlim None 0 1
      (Examples.state_of run1) (snd run1) in
  st_obox (Examples.state_of run1) = (vector [Fin 0], vector [Fin (1 # 4)]) /\
  st_obox (Examples.state_of run2) = (vector [Fin 0], vector [Fin (2 # 9)]) /\
  Float.ltb (Fin (2 # 9)) (Fin (1 # 4)) = true /\
  exists ip,
    fst (build Examples.clock0 Examples.f_hump ip_linear.class Examples.box2 errlim
           None None true 1 Examples.w0)
    = Returns (RetPair ip (mk_ndarray [2; 1]%nat [Fin 0; Fin (2 # 9)])).
Proof.
  cbv zeta. split; [vm_compute; reflexivity |]. split; [vm_compute; reflexivity |].
  split; [reflexivity |]. eexists. vm_compute. reflexivity.
Qed.

(** ** Invalid samples *)

Section NanFatal.
Variable func : ndarray float -> ndarray float.

Lemma nan_fatal_silent {A : Type} (m : M A) :
  (forall w out w', m w = (out, w') -> samples w' = samples w) ->
  nan_fatal func m.
Proof.
  intros Hm w out w' H. exists []. cbn. split; [eauto |]. split; [reflexivity | discriminate].
Qed.

Lemma nan_fatal_ret {A : Type} (a : A) : nan_fatal func (ret a).
Proof. apply nan_fatal_silent. unfold ret. intros. congruence. Qed.

Lemma nan_fatal_raise {A : Type} (e : exn) : nan_fatal func (@raise A e).
Proof. apply nan_fatal_silent. unfold raise. intros. congruence. Qed.

Lemma nan_fatal_lift {A : Type} (r : result A) : nan_fatal func (lift r).
Proof. destruct r; [apply nan_fatal_ret | apply nan_fatal_raise]. Qed.

Lemma clean_app l1 l2 : clean func (l1 ++ l2) = clean func l1 && clean func l2.
Proof. apply forallb_app. Qed.

Lemma clean_tl l : clean func l = true -> clean func (tl l) = true.
Proof. destruct l; cbn; [auto |]. intros H. apply andb_prop in H. tauto. Qed.

Lemma nan_fatal_bind {A B : Type} (m : M A) (k : A -> M B) :
  nan_fatal func m -> (forall a, nan_fatal func (k a)) -> nan_fatal func (bindM m k).
Proof.
  intros Hm Hk w out w' H. unfold bindM in H.
  destruct (m w) as [[a | e |] w1] eqn:Em.
  - destruct (Hm _ _ _ Em) as (new1 & Hs1 & Ht1 & Hc1).
    destruct (Hk a _ _ _ H) as (new2 & Hs2 & Ht2 & Hc2).
    assert (Hclean1 : clean func new1 = true).
    { destruct (clean func new1) eqn:E; [reflexivity |]. specialize (Hc1 eq_refl). discriminate. }
    exists (new2 ++ new1). split; [rewrite Hs2, Hs1; apply app_assoc |].
    split.
    + destruct new2 as [| x new2]; cbn [tl app] in *; [now apply clean_tl |].
      rewrite clean_app. now rewrite Ht2, Hclean1.
    + rewrite clean_app, Hclean1, andb_true_r. exact Hc2.
  - inversion H; subst. destruct (Hm _ _ _ Em) as (new & Hs & Ht & Hc).
    exists new. repeat split; auto. intros Hn. specialize (Hc Hn). congruence.
  - inversion H; subst. destruct (Hm _ _ _ Em) as (new & Hs & Ht & Hc).
    exists new. repeat split; auto. intros Hn. specialize (Hc Hn). discriminate.
Qed.

End NanFatal.

Section NanFatalBuild.
Variable clock : nat -> Q.
Variable func : ndarray float -> ndarray float.
Variable interpolator : interpolator_class.
Variable box errlim : ndarray float.
Variable maxsize : option Z.
Variable maxtime : option Q.
Variable return_obox : bool.

Lemma nan_fatal_time_check t0 : nan_fatal func (time_check clock maxtime t0).
Proof. apply nan_fatal_silent. intros. eapply time_check_samples. eassumption. Qed.

Lemma nan_fatal_for_each {A S : Type} (body : A -> S -> M S) (xs : list A) :
  (forall x st, nan_fatal func (body x st)) ->
  forall st, nan_fatal func (for_each body xs st).
Proof.
  intros Hb. induction xs as [| x xs IH]; intros st; cbn [for_each].
  - apply nan_fatal_ret.
  - apply nan_fatal_bind; auto.
Qed.

(** Sampling a batch and checking it for NaN, as one step. *)
Lemma nan_fatal_sample {B : Type} (x : ndarray float) (k : ndarray float -> M B) :
  (forall y, nan_fatal func (k y)) ->
  nan_fatal func
    (bindM (call_func func x)
       (fun ytrue => if any_isnan ytrue then raise (ValueError invalid_message) else k ytrue)).
Proof.
  intros Hk w out w' H. unfold bindM, call_func in H.
  destruct (any_isnan (func x)) eqn:Hnan.
  - unfold raise in H. inversion H; subst. exists [x]. cbn.
    split; [reflexivity |]. split; [reflexivity |]. intros _. reflexivity.
  - destruct (Hk _ _ _ _ H) as (new & Hs & Ht & Hc). cbn in Hs.
    exists (new ++ [x]). split; [rewrite Hs, <- app_assoc; reflexivity |].
    assert (Hx : clean func [x] = true) by (cbn; unfold nan_batch; now rewrite Hnan).
    split.
    + destruct new as [| y new]; cbn [tl app] in *; [reflexivity |].
      rewrite clean_app. now rewrite Ht, Hx.
    + rewrite clean_app, Hx, andb_true_r. exact Hc.
Qed.

Ltac nan_fatal_steps :=
  repeat first
    [ apply nan_fatal_ret
    | apply nan_fatal_raise
    | apply nan_fatal_lift
    | apply nan_fatal_time_check
    | apply nan_fatal_sample; intros
    | apply nan_fatal_bind; [| intros]
    | match goal with
      | |- nan_fatal _ (if ?b then _ else _) => destruct b
      | |- nan_fatal _ (let '(_, _) := ?p in _) => destruct p
      end ].

Lemma nan_fatal_axis_step t0 i st :
  nan_fatal func (axis_step clock func interpolator box errlim maxtime t0 i st).
Proof. unfold axis_step. nan_fatal_steps. Qed.

Lemma nan_fatal_round idim t0 st :
  nan_fatal func (round clock func interpolator box errlim maxsize maxtime idim t0 st).
Proof.
  unfold round. nan_fatal_steps.
  apply nan_fatal_for_each. intros. apply nan_fatal_axis_step.
Qed.

Lemma nan_fatal_build_loop fuel idim t0 st :
  nan_fatal func
    (build_loop clock func interpolator box errlim maxsize maxtime fuel idim t0 st).
Proof.
  revert st. induction fuel as [| fuel IH]; intros st; cbn [build_loop].
  - apply nan_fatal_silent. intros. congruence.
  - apply nan_fatal_bind; [apply nan_fatal_round |].
    intros [st' done]. destruct done; [apply nan_fatal_ret | apply IH].
Qed.

Lemma build_init_samples w out w1 :
  build_init clock func interpolator box w = (out, w1) ->
  (samples w1 = samples w /\ forall r, out <> Returns r) \/
  (exists x0, samples w1 = x0 :: samples w).
Proof.
  unfold build_init, bindM, lift, time_time, call_func, ret, raise.
  destruct (shape_at box 1) as [idim |];
    [| intros H; inversion H; left; split; [reflexivity | discriminate]].
  destruct (grid box _) as [x |];
    [| intros H; inversion H; left; split; [reflexivity | discriminate]].
  cbn. destruct (construct interpolator box (func x)); intros H; inversion H; right;
    eexists; reflexivity.
Qed.

(** C4 (as amended): a NaN in a batch sampled during refinement is
    fatal at once.  Of the batches handed to the target function after
    the initial one, only the latest can hold a NaN, and then [build]
    ends in [ValueError] without returning an interpolator.  The initial
    batch [x0] is not examined, and infinite values are not looked for. *)
Theorem nan_in_refinement_batch_is_fatal fuel w out w' batches x0 :
  build clock func interpolator box errlim maxsize maxtime return_obox fuel w = (out, w') ->
  samples w' = batches ++ x0 :: samples w ->
  clean func batches = false ->
  out = Raises (ValueError invalid_message) /\
  exists x rest, batches = x :: rest /\ nan_batch func x = true /\ clean func rest = true.
Proof.
  intros H Hs Hdirty. unfold build, build_state in H. unfold bindM at 1 2 in H.
  destruct (build_init clock func interpolator box w) as [[[[idim t0] st] | e |] w1] eqn:Ei.
  - destruct (build_init_samples _ _ _ Ei) as [[_ Hno] | [x0' Hx0]];
      [exfalso; eapply Hno; reflexivity |].
    destruct (build_loop _ _ _ _ _ _ _ _ _ _ _ w1) as [o2 w2] eqn:El.
    destruct (nan_fatal_build_loop _ _ _ _ _ _ _ El) as (new & Hs2 & Ht & Hc).
    assert (Hw : w' = w2).
    { destruct o2; cbn in H; try (inversion H; reflexivity).
      unfold bindM, lift, ret, raise in H. destruct (stack2 _); inversion H; reflexivity. }
    subst w2. rewrite Hs2, Hx0 in Hs.
    assert (Hnew : new = batches /\ x0' = x0).
    { change (new ++ [x0'] ++ samples w = batches ++ [x0] ++ samples w) in Hs.
      rewrite !app_assoc in Hs. apply app_inv_tail in Hs.
      apply app_inj_tail in Hs. exact Hs. }
    destruct Hnew as [-> ->]. specialize (Hc Hdirty). subst o2. cbn in H.
    split; [inversion H; reflexivity |].
    destruct batches as [| x rest]; [discriminate |]. cbn [tl] in Ht.
    exists x, rest. split; [reflexivity |]. split; [| assumption].
    change (negb (nan_batch func x) && clean func rest = false) in Hdirty.
    rewrite Ht, andb_true_r in Hdirty.
    now apply negb_false_iff in Hdirty.
  - exfalso. inversion H; subst.
    destruct (build_init_samples _ _ _ Ei) as [[Hsame _] | [x0' Hx0]].
    + rewrite Hsame in Hs. apply (f_equal (@length _)) in Hs.
      rewrite length_app in Hs. cbn in Hs. lia.
    + rewrite Hx0 in Hs. destruct batches as [| b batches]; [discriminate |].
      apply (f_equal (@length _)) in Hs. cbn in Hs. rewrite length_app in Hs. cbn in Hs. lia.
  - exfalso. inversion H; subst.
    destruct (build_init_samples _ _ _ Ei) as [[Hsame _] | [x0' Hx0]].
    + rewrite Hsame in Hs. apply (f_equal (@length _)) in Hs.
      rewrite length_app in Hs. cbn in Hs. lia.
    + rewrite Hx0 in Hs. destruct batches as [| b batches]; [discriminate |].
      apply (f_equal (@length _)) in Hs. cbn in Hs. rewrite length_app in Hs. cbn in Hs. lia.
Qed.

End NanFatalBuild.

Lemma nan_in_refinement_batch_is_fatal_witness :
  let func := Examples.f_nan_at (1 # 8) in
  let run :=
    build Examples.clock0 func ip_linear.class Examples.box1 (Examples.tol (1 # 100))
      None None false 1 Examples.w0 in
  fst run = Raises (ValueError invalid_message) /\
  exists x rest,
    firstn 1 (samples (snd run)) = x :: rest /\
    nan_batch func x = true /\ clean func rest = true.
Proof.
  intros func run.
  apply (nan_in_refinement_batch_is_fatal Examples.clock0 func
           ip_linear.class Examples.box1 (Examples.tol (1 # 100)) None None false 1
           Examples.w0 (fst run) (snd run) (firstn 1 (samples (snd run)))
           (mk_ndarray [1; 4]%nat [Fin 0; Fin (1 # 3); Fin (2 # 3); Fin 1]));
    vm_compute; reflexivity.
Defined.

(** C4 (as stated) fails twice.  On [f(x) = 1/x] over [0,1] the value at 0
    is infinite in the initial batch and in the batch of 9 points, and
    [build] returns.  On a function that is NaN at 1/3 only, the initial
    batch holds a NaN, the batch of 9 points does not, and [build]
    returns. *)
Lemma non_finite_samples_can_pass :
  (exists r w,
      build Examples.clock0 Examples.f_recip ip_linear.class Examples.box1
        (Examples.tol (1 # 100)) None None false 1 Examples.w0 = (Returns r, w) /\
      forallb (fun x => existsb Examples.is_inf (data (Examples.f_recip x))) (samples w)
      = true) /\
  (exists r w,
      build Examples.clock0 (Examples.f_nan_at (1 # 3)) ip_linear.class Examples.box1
        (Examples.tol (1 # 100)) None None false 1 Examples.w0 = (Returns r, w) /\
      map (nan_batch (Examples.f_nan_at (1 # 3))) (samples w) = [false; true]).
Proof.
  split; do 2 eexists; (split; [vm_compute; reflexivity | reflexivity]).
Qed.

(** ** The resource budgets *)

Lemma safe_ok {A : Type} (a : A) : safe (Ok a).
Proof. intros e H. discriminate. Qed.

Lemma safe_bind {A B : Type} (m : result A) (k : A -> result B) :
  safe m -> (forall a, safe (k a)) -> safe (bind m k).
Proof.
  intros Hm Hk e H. destruct m as [a | e']; cbn in H.
  - exact (Hk a e H).
  - apply Hm. congruence.
Qed.

Lemma safe_raise {A : Type} (e : exn) : not_overflow e -> safe (@Raise A e).
Proof. intros He e' H. inversion H; subst. exact He. Qed.

Ltac safe_steps :=
  repeat first
    [ apply safe_ok
    | apply safe_raise; exact I
    | apply safe_bind; [| intros]
    | match goal with
      | |- safe (if ?b then _ else _) => destruct b
      | |- safe (match ?x with _ => _ end) => destruct x
      end ].

Lemma safe_broadcast_rev r1 r2 : safe (broadcast_rev r1 r2).
Proof.
  revert r2. induction r1 as [| a r1 IH]; intros [| b r2]; cbn [broadcast_rev];
    try apply safe_ok.
  apply safe_bind; [apply IH |]. intros. unfold shape_error. safe_steps.
Qed.

Lemma safe_broadcast_shapes s1 s2 : safe (broadcast_shapes s1 s2).
Proof.
  unfold broadcast_shapes. apply safe_bind; [apply safe_broadcast_rev |]. intros. safe_steps.
Qed.

Lemma safe_broadcast2 {A B C : Type} `{Default A} `{Default B} (f : A -> B -> C) a b :
  safe (broadcast2 f a b).
Proof. unfold broadcast2. apply safe_bind; [apply safe_broadcast_shapes |]. intros. safe_steps. Qed.

Lemma safe_plan sh ix : safe (plan sh ix).
Proof.
  revert ix. induction sh as [| d sh IH]; intros ix; cbn [plan]; [apply safe_ok |].
  destruct ix as [| [k | a b] ix].
  - apply safe_bind; [apply IH |]. intros. safe_steps.
  - destruct (_ && _); [| safe_steps]. apply safe_bind; [apply IH |]. intros. safe_steps.
  - destruct (slice_range d a b). apply safe_bind; [apply IH |]. intros. safe_steps.
Qed.

Lemma safe_getitem {A : Type} `{Default A} (a : ndarray A) ix : safe (getitem a ix).
Proof.
  unfold getitem, checked_plan. apply safe_bind; [| intros; safe_steps].
  destruct (_ <? _)%nat; [safe_steps | apply safe_plan].
Qed.

Lemma safe_any_items items : safe (any_items items).
Proof.
  induction items as [| r items IH]; cbn [any_items]; [apply safe_ok |].
  apply safe_bind; [unfold truth; safe_steps |]. intros [|]; [apply safe_ok | apply IH].
Qed.

Lemma safe_py_any a : safe (py_any a).
Proof. unfold py_any. destruct (shape a); [safe_steps | apply safe_any_items]. Qed.

Lemma safe_exceeds errlim e : safe (exceeds errlim e).
Proof. unfold exceeds. apply safe_bind; [apply safe_broadcast2 | intros; apply safe_py_any]. Qed.

Lemma safe_item {A : Type} (l : list A) i : safe (item l i).
Proof. unfold item. safe_steps. Qed.

Lemma safe_set_item {A : Type} (l : list A) i v : safe (set_item l i v).
Proof. unfold set_item. safe_steps. Qed.

Lemma safe_shape_at {A : Type} (a : ndarray A) k : safe (shape_at a k).
Proof. unfold shape_at. safe_steps. Qed.

Lemma safe_reshape_infer {A : Type} (a : ndarray A) d : safe (reshape_infer a d).
Proof. unfold reshape_infer. safe_steps. Qed.

Lemma safe_reshape_rows {A : Type} (a : ndarray A) : safe (reshape_rows a).
Proof. unfold reshape_rows. safe_steps. Qed.

Lemma safe_rows {A : Type} `{Default A} (a : ndarray A) : safe (rows a).
Proof. unfold rows, axis_error. safe_steps. Qed.

Lemma safe_mapM {A B : Type} (f : A -> result B) xs :
  (forall x, safe (f x)) -> safe (mapM f xs).
Proof.
  intros Hf. induction xs as [| x xs IH]; cbn [mapM]; [apply safe_ok |].
  apply safe_bind; [apply Hf |]. intros. apply safe_bind; [apply IH |]. intros. apply safe_ok.
Qed.

Lemma safe_std_axis1 a : safe (std_axis1 a).
Proof. unfold std_axis1. apply safe_bind; [apply safe_rows | intros; apply safe_ok]. Qed.

Lemma safe_min_axis1 a : safe (min_axis1 a).
Proof.
  unfold min_axis1. apply safe_bind; [apply safe_rows |]. intros.
  apply safe_bind; [| intros; apply safe_ok].
  apply safe_mapM. intros x. unfold min_list, empty_reduction. safe_steps.
Qed.

Lemma safe_max_axis1 a : safe (max_axis1 a).
Proof.
  unfold max_axis1. apply safe_bind; [apply safe_rows |]. intros.
  apply safe_bind; [| intros; apply safe_ok].
  apply safe_mapM. intros x. unfold max_list, empty_reduction. safe_steps.
Qed.

Lemma safe_stack2 ob : safe (stack2 ob).
Proof. unfold stack2. safe_steps. Qed.

Lemma safe_grid box n : safe (grid box n).
Proof.
  unfold grid. destruct (negb _); [safe_steps |]. destruct (_ <=? _); [safe_steps |].
  apply safe_bind; [apply safe_getitem |]. intros.
  apply safe_bind; [apply safe_getitem |]. intros.
  apply safe_bind; [apply safe_broadcast2 |]. intros.
  unfold shape_error. safe_steps.
Qed.

Lemma safe_foldM {A B : Type} (body : B -> A -> result B) xs :
  (forall acc x, safe (body acc x)) -> forall acc, safe (foldM body xs acc).
Proof.
  intros Hb. induction xs as [| x xs IH]; intros acc; cbn [foldM]; [apply safe_ok |].
  apply safe_bind; [apply Hb | intros; apply IH].
Qed.

Lemma safe_broadcast_to {A : Type} `{Default A} (v : ndarray A) target :
  safe (broadcast_to v target).
Proof.
  unfold broadcast_to. apply safe_bind; [apply safe_broadcast_shapes |]. intros. safe_steps.
Qed.

Lemma safe_checked_plan sh ix : safe (checked_plan sh ix).
Proof. unfold checked_plan. destruct (_ <? _)%nat; [safe_steps | apply safe_plan]. Qed.

Lemma safe_setitem {A : Type} `{Default A} (a : ndarray A) ix v : safe (setitem a ix v).
Proof.
  unfold setitem. apply safe_bind; [apply safe_checked_plan |]. intros.
  apply safe_bind; [apply safe_broadcast_to |]. intros. apply safe_ok.
Qed.

Lemma safe_getattr self name : safe (getattr self name).
Proof. unfold getattr. safe_steps. Qed.

Lemma safe_attr_int self name : safe (attr_int self name).
Proof. unfold attr_int. apply safe_bind; [apply safe_getattr |]. intros. safe_steps. Qed.

Lemma safe_attr_arr self name : safe (attr_arr self name).
Proof. unfold attr_arr. apply safe_bind; [apply safe_getattr |]. intros. safe_steps. Qed.

Lemma safe_column {A : Type} (a : ndarray A) : safe (column a).
Proof. unfold column. safe_steps. Qed.

Lemma safe_reshape {A : Type} (a : ndarray A) new : safe (reshape a new).
Proof. unfold reshape. safe_steps. Qed.

Lemma safe_take_points {A : Type} `{Default A} (a : ndarray A) npre ix :
  safe (take_points a npre ix).
Proof.
  unfold take_points.
  destruct (shape ix) as [| n [| P [| ? ?]]]; try (safe_steps; fail).
  destruct (n =? 0)%nat; [apply safe_getitem |]. safe_steps.
Qed.

Lemma safe_prod_axis0 a : safe (prod_axis0 a).
Proof.
  unfold prod_axis0. apply safe_bind; [| intros; apply safe_ok].
  unfold columns, axis_error. safe_steps.
Qed.

Lemma safe_iadd res term : safe (iadd res term).
Proof. unfold iadd. apply safe_bind; [apply safe_broadcast2 |]. intros. safe_steps. Qed.

Lemma safe_zeros_of dims : safe (zeros_of dims).
Proof. unfold zeros_of. safe_steps. Qed.

Lemma safe_ndarray_attr {A : Type} (a : ndarray A) name : safe (ndarray_attr a name).
Proof. unfold ndarray_attr. safe_steps. Qed.

Ltac safe_numpy :=
  repeat first
    [ apply safe_ok
    | apply safe_raise; exact I
    | apply safe_getitem | apply safe_setitem | apply safe_broadcast2 | apply safe_attr_int
    | apply safe_attr_arr | apply safe_column | apply safe_reshape | apply safe_take_points
    | apply safe_prod_axis0 | apply safe_iadd | apply safe_zeros_of | apply safe_ndarray_attr
    | apply safe_shape_at | apply safe_reshape_rows
    | apply safe_foldM; intros
    | apply safe_bind; [| intros]
    | match goal with
      | |- safe (let '(_, _) := ?p in _) => destruct p
      end ].

Lemma safe_lin_derivs_forward y npre : safe (lin_derivs_forward y npre).
Proof. unfold lin_derivs_forward. safe_numpy. Qed.

Lemma safe_grad_forward y npre : safe (grad_forward y npre).
Proof. unfold grad_forward. safe_numpy. Qed.

Lemma safe_locate self x : safe (locate self x).
Proof. unfold locate, scaled_coords, clamp_index, cells_of. safe_numpy. Qed.

Lemma quiet_ip_linear : quiet ip_linear.class.
Proof.
  split; cbn [construct evaluate ip_linear.class]; intros.
  - revert e H. change (safe (ip_linear.init b y)). unfold ip_linear.init.
    safe_numpy.
  - revert e H. change (safe (ip_linear.call o x)). unfold ip_linear.call.
    apply safe_bind; [apply safe_locate |]. intros. safe_numpy.
Qed.

Lemma quiet_ip_grad : quiet ip_grad.class.
Proof.
  split; cbn [construct evaluate ip_grad.class]; intros.
  - revert e H. change (safe (ip_grad.init b y)). unfold ip_grad.init.
    safe_numpy.
  - revert e H. change (safe (ip_grad.call o x)). unfold ip_grad.call.
    apply safe_bind; [apply safe_locate |]. intros. safe_numpy.
Qed.
Lemma calm_ret {A : Type} msg (a : A) : calm msg (ret a).
Proof. intros w out w' H. unfold ret in H. inversion H. reflexivity. Qed.

Lemma calm_lift {A : Type} msg (r : result A) : safe r -> calm msg (lift r).
Proof.
  intros Hr w out w' H. destruct r as [a | e]; cbn in H; inversion H; subst; cbn; [reflexivity |].
  specialize (Hr e eq_refl). destruct e; cbn in *; try reflexivity. contradiction.
Qed.

Lemma calm_raise {A : Type} msg (e : exn) :
  raises_with (@Raises A e) msg = false -> calm msg (@raise A e).
Proof. intros He w out w' H. unfold raise in H. inversion H; subst. exact He. Qed.

Lemma calm_bind {A B : Type} msg (m : M A) (k : A -> M B) :
  calm msg m -> (forall a, calm msg (k a)) -> calm msg (bindM m k).
Proof.
  intros Hm Hk w out w' H. unfold bindM in H.
  destruct (m w) as [[a | e |] w1] eqn:Em.
  - exact (Hk a _ _ _ H).
  - inversion H; subst. exact (Hm _ _ _ Em).
  - inversion H; subst. reflexivity.
Qed.

Lemma calm_for_each {A S : Type} msg (body : A -> S -> M S) (xs : list A) :
  (forall x st, calm msg (body x st)) -> forall st, calm msg (for_each body xs st).
Proof.
  intros Hb. induction xs as [| x xs IH]; intros st; cbn [for_each].
  - apply calm_ret.
  - apply calm_bind; auto.
Qed.

Section Budgets.
Variable clock : nat -> Q.
Variable func : ndarray float -> ndarray float.
Variable interpolator : interpolator_class.
Variable box errlim : ndarray float.
Variable return_obox : bool.
Hypothesis Hquiet : quiet interpolator.

Lemma calm_call_func msg x : calm msg (call_func func x).
Proof. intros w out w' H. unfold call_func in H. inversion H. reflexivity. Qed.

Lemma calm_time_time msg : calm msg (time_time clock).
Proof. intros w out w' H. unfold time_time in H. inversion H. reflexivity. Qed.

(** The time check never raises the error of the mesh budget, and raises
    nothing when the time budget is absent or zero. *)
Lemma calm_time_check_size maxtime t0 : calm size_message (time_check clock maxtime t0).
Proof.
  unfold time_check. destruct maxtime as [m |]; [| apply calm_ret].
  destruct (Qeq_bool m 0); [apply calm_ret |].
  apply calm_bind; [apply calm_time_time |]. intros t.
  destruct (Float.Qltb _ _); [apply calm_raise; reflexivity | apply calm_ret].
Qed.

Lemma time_check_disabled maxtime t0 :
  maxtime = None \/ maxtime = Some 0%Q ->
  time_check clock maxtime t0 = ret tt.
Proof. intros [-> | ->]; reflexivity. Qed.

Ltac calm_steps :=
  repeat first
    [ apply calm_ret
    | apply calm_call_func
    | apply calm_raise; reflexivity
    | apply calm_lift;
      first [ apply safe_item | apply safe_exceeds | apply safe_set_item | apply safe_grid
            | apply safe_broadcast2 | apply safe_shape_at | apply safe_reshape_infer
            | apply safe_std_axis1 | apply safe_reshape_rows | apply safe_min_axis1
            | apply safe_max_axis1 | apply safe_stack2
            | intros e He; eapply (proj1 Hquiet); eassumption
            | intros e He; eapply (proj2 Hquiet); eassumption ]
    | apply calm_bind; [| intros]
    | match goal with
      | |- calm _ (if ?b then _ else _) => destruct b
      | |- calm _ (let '(_, _) := ?p in _) => destruct p
      end ].

Lemma calm_axis_step msg maxtime t0 i st :
  calm msg (time_check clock maxtime t0) ->
  calm msg (axis_step clock func interpolator box errlim maxtime t0 i st).
Proof. intros Ht. unfold axis_step. calm_steps. exact Ht. Qed.

Lemma calm_build msg maxsize maxtime fuel :
  (forall t0, calm msg (time_check clock maxtime t0)) ->
  (forall n, size_exceeded maxsize n = true -> String.eqb size_message msg = false) ->
  calm msg (build clock func interpolator box errlim maxsize maxtime return_obox fuel).
Proof.
  intros Ht Hs. unfold build, build_state, build_init.
  calm_steps; [apply calm_time_time |].
  match goal with |- calm _ (build_loop _ _ _ _ _ _ _ _ ?idim ?t0 ?st) =>
    generalize st; generalize t0; generalize idim end.
  induction fuel as [| fuel IH]; intros idim t0 st; cbn [build_loop].
  - intros w out w' H. inversion H. reflexivity.
  - apply calm_bind.
    + unfold round. destruct (size_exceeded maxsize (st_n st)) eqn:E.
      * apply calm_raise. cbn. exact (Hs _ E).
      * apply calm_bind; [| intros; apply calm_ret].
        apply calm_for_each. intros. apply calm_axis_step. apply Ht.
    + intros [st' done]. destruct done; [apply calm_ret | apply IH].
Qed.

(** C10: a budget of 0 disables its check.  With [maxsize = 0] the run
    is the run without a mesh budget and never ends in the error of the
    mesh budget; with [maxtime = 0] the run is the run without a time
    budget and never ends in the error of the time budget.  (The class
    of the interpolator is assumed not to raise [OverflowError] of its
    own.) *)
Theorem zero_budget_disables_check maxsize maxtime fuel w :
  (build clock func interpolator box errlim (Some 0) maxtime return_obox fuel w
   = build clock func interpolator box errlim None maxtime return_obox fuel w /\
   raises_with
     (fst (build clock func interpolator box errlim (Some 0) maxtime return_obox fuel w))
     size_message = false) /\
  (build clock func interpolator box errlim maxsize (Some 0%Q) return_obox fuel w
   = build clock func interpolator box errlim maxsize None return_obox fuel w /\
   raises_with
     (fst (build clock func interpolator box errlim maxsize (Some 0%Q) return_obox fuel w))
     time_message = false).
Proof.
  split; split.
  - reflexivity.
  - destruct (build _ _ _ _ _ (Some 0) _ _ _ w) as [out w'] eqn:E. cbn [fst].
    eapply calm_build; [| | exact E].
    + intros. apply calm_time_check_size.
    + intros n Hn. discriminate.
  - reflexivity.
  - destruct (build _ _ _ _ _ _ (Some 0%Q) _ _ w) as [out w'] eqn:E. cbn [fst].
    eapply calm_build; [| | exact E].
    + intros. rewrite time_check_disabled by auto. apply calm_ret.
    + intros n Hn. reflexivity.
Qed.
End Budgets.


Lemma zero_budget_disables_check_witness :
  let run_size :=
    build Examples.clock0 Examples.f_sq ip_linear.class Examples.box1
      (Examples.tol (1 # 100)) (Some 0) None false 3 Examples.w0 in
  let run_time :=
    build Examples.clock0 Examples.f_sq ip_linear.class Examples.box1
      (Examples.tol (1 # 100)) None (Some 0%Q) false 3 Examples.w0 in
  (run_size
   = build Examples.clock0 Examples.f_sq ip_linear.class Examples.box1
       (Examples.tol (1 # 100)) None None false 3 Examples.w0 /\
   raises_with (fst run_size) size_message = false) /\
  (run_time
   = build Examples.clock0 Examples.f_sq ip_linear.class Examples.box1
       (Examples.tol (1 # 100)) None None false 3 Examples.w0 /\
   raises_with (fst run_time) time_message = false).
Proof.
  cbv zeta.
  exact (zero_budget_disables_check Examples.clock0 Examples.f_sq ip_linear.class
           Examples.box1 (Examples.tol (1 # 100)) false quiet_ip_linear None None 3
           Examples.w0).
Defined.

Section MeshBudget.
Variable clock : nat -> Q.
Variable func : ndarray float -> ndarray float.
Variable interpolator : interpolator_class.
Variable box errlim : ndarray float.
Variable maxsize : option Z.
Variable maxtime : option Q.
Variable return_obox : bool.

Lemma round_over_budget idim t0 st w :
  size_exceeded maxsize (st_n st) = true ->
  round clock func interpolator box errlim maxsize maxtime idim t0 st w
  = (Raises (OverflowError size_message), w).
Proof. intros H. unfold round. rewrite H. reflexivity. Qed.

(** C5 (as amended): the mesh budget is compared with the mesh that is
    currently accepted, at the start of a round.  With a nonzero
    [maxsize] smaller than [np.product(n)], the round raises
    [OverflowError] before any resample (the log of the batches is
    unchanged); in particular [build] raises right after the initial
    sampling when the initial mesh is already over the budget.  The
    doubled mesh of an axis is not compared with the budget before it is
    resampled. *)
Theorem mesh_budget_checked_at_round_start fuel idim t0 st w w1 m :
  maxsize = Some m -> m <> 0 -> m < np_product (st_n st) ->
  build_loop clock func interpolator box errlim maxsize maxtime (S fuel) idim t0 st w1
  = (Raises (OverflowError size_message), w1) /\
  (build_init clock func interpolator box w = (Returns (idim, t0, st), w1) ->
   build clock func interpolator box errlim maxsize maxtime return_obox (S fuel) w
   = (Raises (OverflowError size_message), w1)).
Proof.
  intros Hm Hnz Hlt.
  assert (Hex : size_exceeded maxsize (st_n st) = true).
  { unfold size_exceeded. rewrite Hm.
    apply andb_true_intro. split.
    - apply negb_true_iff. now apply Z.eqb_neq.
    - now apply Z.ltb_lt. }
  assert (Hloop :
    build_loop clock func interpolator box errlim maxsize maxtime (S fuel) idim t0 st w1
    = (Raises (OverflowError size_message), w1)).
  { cbn [build_loop]. unfold bindM at 1. now rewrite round_over_budget. }
  split; [exact Hloop |].
  intros Hinit. unfold build, build_state. unfold bindM at 1 2.
  rewrite Hinit. now rewrite Hloop.
Qed.

End MeshBudget.

Lemma mesh_budget_checked_at_round_start_witness :
  let st := Examples.start Examples.f_lin ip_linear.class Examples.box1 in
  let w1 := Examples.world_after_start Examples.f_lin ip_linear.class Examples.box1 in
  build_loop Examples.clock0 Examples.f_lin ip_linear.class Examples.box1
    (Examples.tol (1 # 100)) (Some 3) None 1 1 0 st w1
  = (Raises (OverflowError size_message), w1) /\
  build Examples.clock0 Examples.f_lin ip_linear.class Examples.box1
    (Examples.tol (1 # 100)) (Some 3) None false 1 Examples.w0
  = (Raises (OverflowError size_message), w1).
Proof.
  cbv zeta.
  destruct (mesh_budget_checked_at_round_start Examples.clock0 Examples.f_lin
              ip_linear.class Examples.box1 (Examples.tol (1 # 100)) (Some 3) None false
              0 1 0%Q (Examples.start Examples.f_lin ip_linear.class Examples.box1)
              Examples.w0
              (Examples.world_after_start Examples.f_lin ip_linear.class Examples.box1) 3)
    as [Hloop Hbuild];
    [reflexivity | discriminate | vm_compute; reflexivity |].
  split; [exact Hloop | apply Hbuild; vm_compute; reflexivity].
Defined.

(** C5 (as stated) fails: with a mesh budget of 5, below the 9 points of
    the mesh doubled along the only axis, the 9 points are resampled all
    the same.  On [f(x) = 2x+1] the run then returns without any error; on
    [f(x) = x*x] the error of the budget comes one round later, after the
    resample. *)
Lemma resample_beyond_mesh_budget :
  (exists r w,
      build Examples.clock0 Examples.f_lin ip_linear.class Examples.box1
        (Examples.tol (1 # 100)) (Some 5) None false 2 Examples.w0 = (Returns r, w) /\
      map (@shape float) (samples w) = [[1; 9]; [1; 4]]%nat) /\
  (exists w,
      build Examples.clock0 Examples.f_sq ip_linear.class Examples.box1
        (Examples.tol (1 # 100)) (Some 5) None false 2 Examples.w0
      = (Raises (OverflowError size_message), w) /\
      map (@shape float) (samples w) = [[1; 9]; [1; 4]]%nat) /\
  5 < 9.
Proof.
  split; [| split; [| reflexivity]].
  - do 2 eexists. split; [vm_compute; reflexivity | reflexivity].
  - eexists. split; [vm_compute; reflexivity | reflexivity].
Qed.

(** ** The resolution vector *)

Lemma doubling_succ k : doubling (S k) = 2 * doubling k + 1.
Proof. reflexivity. Qed.

Lemma doubling_ge_4 k : 4 <= doubling k.
Proof. induction k as [| k IH]; [unfold doubling; cbn; lia | rewrite doubling_succ; lia]. Qed.

Lemma wrap64_small z : - 2 ^ 63 <= z < 2 ^ 63 -> wrap64 z = z.
Proof.
  intros Hz. unfold wrap64. rewrite Z.mod_small; lia.
Qed.

Lemma product_bounds_entries (n : list Z) v :
  Forall (fun k => 1 <= k) n -> In v n -> v <= fold_right Z.mul 1 n /\ 1 <= fold_right Z.mul 1 n.
Proof.
  induction n as [| k n IH]; intros Hall Hin; [contradiction |].
  inversion Hall as [| ? ? Hk Hrest]; subst. cbn [fold_right].
  assert (Hp : 1 <= fold_right Z.mul 1 n).
  { clear - Hrest. induction Hrest; cbn [fold_right]; [lia | nia]. }
  destruct Hin as [-> | Hin].
  - nia.
  - destruct (IH Hrest Hin) as [Hv _]. nia.
Qed.

(** A mesh of resolutions at least 1 for which [grid] returns fits: every
    resolution is below 2^60. *)
Lemma grid_ok_small box n x :
  grid box n = Ok x -> Forall (fun k => 1 <= k) n -> Forall (fun k => k < 2 ^ 60) n.
Proof.
  unfold grid. intros H Hpos.
  destruct (negb _); [discriminate |].
  destruct (2 ^ 63 <=? _) eqn:E; [discriminate |].
  apply Z.leb_gt in E. apply Forall_forall. intros v Hv.
  destruct (product_bounds_entries n v Hpos Hv) as [Hle Hone].
  assert (Hlen : 1 <= Z.of_nat (length n)) by (destruct n; [contradiction | cbn [length]; lia]).
  nia.
Qed.

Lemma Forall2_le_refl (n : list Z) : Forall2 Z.le n n.
Proof. induction n; constructor; [lia | assumption]. Qed.

Lemma Forall2_le_trans (a b c : list Z) :
  Forall2 Z.le a b -> Forall2 Z.le b c -> Forall2 Z.le a c.
Proof.
  intros Hab. revert c. induction Hab; intros c Hbc; inversion Hbc; subst; constructor;
    [lia | auto].
Qed.

Lemma replace_nth_Forall {A : Type} (P : A -> Prop) l i v :
  Forall P l -> P v -> Forall P (replace_nth l i v).
Proof.
  intros Hl Hv. revert i. induction Hl; intros [| i]; cbn; constructor; auto.
Qed.

Lemma replace_nth_le (l : list Z) i v old :
  nth_error l i = Some old -> old <= v -> Forall2 Z.le l (replace_nth l i v).
Proof.
  revert i. induction l as [| x l IH]; intros [| i] Hn Hle; cbn in *; try discriminate.
  - inversion Hn; subst. constructor; [assumption | apply Forall2_le_refl].
  - constructor; [lia | eauto].
Qed.

Lemma item_nth_error {A : Type} (l : list A) i v :
  item l i = Ok v -> nth_error l (Z.to_nat i) = Some v.
Proof.
  unfold item. destruct (nth_error l (Z.to_nat i)); [| discriminate].
  destruct (0 <=? i); congruence.
Qed.

Lemma set_item_replace {A : Type} (l l' : list A) i v :
  set_item l i v = Ok l' -> l' = replace_nth l (Z.to_nat i) v.
Proof. unfold set_item. destruct (_ && _); congruence. Qed.

Lemma mesh_inv_pos n : mesh_inv n -> Forall (fun k => 1 <= k) n.
Proof.
  apply Forall_impl. intros v [[k ->] _]. pose proof (doubling_ge_4 k). lia.
Qed.

Section Resolution.
Variable clock : nat -> Q.
Variable func : ndarray float -> ndarray float.
Variable interpolator : interpolator_class.
Variable box errlim : ndarray float.
Variable maxsize : option Z.
Variable maxtime : option Q.

Lemma axis_step_mesh t0 i st w st' w' :
  mesh_inv (st_n st) ->
  axis_step clock func interpolator box errlim maxtime t0 i st w = (Returns st', w') ->
  mesh_inv (st_n st') /\ Forall2 Z.le (st_n st) (st_n st').
Proof.
  intros Hinv H. apply axis_step_returns in H.
  destruct H as (e & He & [(_ & _ & ->) | (_ & H)]).
  { cbn. split; [assumption | apply Forall2_le_refl]. }
  destruct H as (w1 & ni & nnew & x & yinter & err & errs & obox0 & obox1 & H).
  destruct H as (_ & Hni & Hnew & Hx & _ & _ & _ & _ & Hcase).
  destruct Hcase as [(_ & ->) | (_ & ip & _ & ->)]; cbn.
  { split; [assumption | apply Forall2_le_refl]. }
  apply item_nth_error in Hni. apply set_item_replace in Hnew.
  assert (Hin : In ni (st_n st)) by (eapply nth_error_In; eassumption).
  pose proof (proj1 (Forall_forall _ _) Hinv ni Hin) as [[k Hk] Hsmall].
  pose proof (doubling_ge_4 k) as Hge.
  assert (Hw : wrap64 (wrap64 (ni * 2) + 1) = doubling (S k)).
  { rewrite doubling_succ, <- Hk. rewrite (wrap64_small (ni * 2)) by lia.
    rewrite wrap64_small by lia. lia. }
  rewrite Hw in Hnew. subst nnew.
  split.
  - assert (Hpos : Forall (fun v => 1 <= v) (replace_nth (st_n st) (Z.to_nat i) (doubling (S k)))).
    { apply replace_nth_Forall; [now apply mesh_inv_pos |].
      pose proof (doubling_ge_4 (S k)). lia. }
    pose proof (grid_ok_small _ _ _ Hx Hpos) as Hfit.
    unfold mesh_inv. apply Forall_forall. intros v Hv. split.
    + assert (Horb : Forall on_orbit (replace_nth (st_n st) (Z.to_nat i) (doubling (S k)))).
      { apply replace_nth_Forall; [| now exists (S k)].
        eapply Forall_impl; [| exact Hinv]. intros ? [? _]. assumption. }
      exact (proj1 (Forall_forall _ _) Horb v Hv).
    + exact (proj1 (Forall_forall _ _) Hfit v Hv).
  - eapply replace_nth_le; [eassumption |]. rewrite doubling_succ. lia.
Qed.

Lemma for_each_axis_mesh t0 (axes : list Z) st w st' w' :
  mesh_inv (st_n st) ->
  for_each (axis_step clock func interpolator box errlim maxtime t0) axes st w
  = (Returns st', w') ->
  mesh_inv (st_n st') /\ Forall2 Z.le (st_n st) (st_n st').
Proof.
  revert st w. induction axes as [| i axes IH]; intros st w Hinv H; cbn [for_each] in H.
  - invert_run. split; [assumption | apply Forall2_le_refl].
  - invert_run.
    match goal with
    | H : axis_step _ _ _ _ _ _ _ _ _ _ = _ |- _ =>
        destruct (axis_step_mesh _ _ _ _ _ _ Hinv H) as [Hinv1 Hle1]
    end.
    match goal with
    | H : for_each _ _ _ _ = _ |- _ => destruct (IH _ _ Hinv1 H) as [Hinv2 Hle2]
    end.
    split; [assumption | eapply Forall2_le_trans; eassumption].
Qed.

Lemma round_mesh idim t0 st w st' done w' :
  mesh_inv (st_n st) ->
  round clock func interpolator box errlim maxsize maxtime idim t0 st w
  = (Returns (st', done), w') ->
  mesh_inv (st_n st') /\ Forall2 Z.le (st_n st) (st_n st').
Proof.
  intros Hinv H. unfold round in H.
  destruct (size_exceeded maxsize (st_n st)); [discriminate |].
  invert_run.
  match goal with
  | H : for_each _ _ _ _ = _ |- _ => apply for_each_axis_mesh in H; [exact H | exact Hinv]
  end.
Qed.

Lemma build_loop_mesh fuel idim t0 st w st' w' :
  mesh_inv (st_n st) ->
  build_loop clock func interpolator box errlim maxsize maxtime fuel idim t0 st w
  = (Returns st', w') ->
  mesh_inv (st_n st') /\ Forall2 Z.le (st_n st) (st_n st').
Proof.
  revert st w. induction fuel as [| fuel IH]; intros st w Hinv H; cbn [build_loop] in H;
    [discriminate |].
  apply bindM_returns in H. destruct H as ([st1 done] & w1 & Hr & H).
  destruct (round_mesh _ _ _ _ _ _ _ Hinv Hr) as [Hinv1 Hle1].
  destruct done.
  - invert_run. auto.
  - destruct (IH _ _ Hinv1 H) as [Hinv2 Hle2].
    split; [assumption | eapply Forall2_le_trans; eassumption].
Qed.

Lemma build_init_mesh w idim t0 st w1 :
  build_init clock func interpolator box w = (Returns (idim, t0, st), w1) ->
  st_n st = repeat 4 (Z.to_nat idim) /\ mesh_inv (st_n st).
Proof.
  intros H. unfold build_init in H. invert_run.
  unfold time_time in *.
  repeat match goal with
  | H : (_, _) = (_, _) |- _ => inversion H; subst; clear H
  end.
  cbn. split; [reflexivity |].
  unfold mesh_inv, tuple_mul. apply Forall_forall. intros v Hv.
  apply repeat_spec in Hv. subst v. split; [exists 0%nat; reflexivity | lia].
Qed.

(** C9: the resolutions never decrease and stay on the orbit of 4 under
    [n -> 2n+1].  The vector [n] starts as 4 on every axis; every step of
    the loop over the axes, hence every round, leaves each [n[i]] unchanged
    or replaces it by [2*n[i]+1], so that it stays a doubling of 4 (and
    small enough for the 64-bit arithmetic not to wrap, since the doubled
    mesh has been built) and never decreases; when [build] leaves its
    loop, every [n[i]] is a doubling of 4, at least 4. *)
Theorem resolution_stays_on_doubling_orbit :
  (forall w idim t0 st w1,
      build_init clock func interpolator box w = (Returns (idim, t0, st), w1) ->
      st_n st = repeat 4 (Z.to_nat idim) /\ mesh_inv (st_n st)) /\
  (forall t0 i st w st' w',
      mesh_inv (st_n st) ->
      axis_step clock func interpolator box errlim maxtime t0 i st w = (Returns st', w') ->
      mesh_inv (st_n st') /\ Forall2 Z.le (st_n st) (st_n st')) /\
  (forall idim t0 st w st' done w',
      mesh_inv (st_n st) ->
      round clock func interpolator box errlim maxsize maxtime idim t0 st w
      = (Returns (st', done), w') ->
      mesh_inv (st_n st') /\ Forall2 Z.le (st_n st) (st_n st')) /\
  (forall fuel w st w',
      build_state clock func interpolator box errlim maxsize maxtime fuel w
      = (Returns st, w') ->
      Forall on_orbit (st_n st) /\
      Forall2 Z.le (repeat 4 (length (st_n st))) (st_n st)).
Proof.
  split; [exact build_init_mesh |].
  split; [exact axis_step_mesh |].
  split; [exact round_mesh |].
  intros fuel w st w' H. unfold build_state in H.
  apply bindM_returns in H. destruct H as ([[idim t0] st0] & w1 & Hi & Hl).
  destruct (build_init_mesh _ _ _ _ _ Hi) as [Hn0 Hinv0].
  destruct (build_loop_mesh _ _ _ _ _ _ _ Hinv0 Hl) as [Hinv Hle].
  split.
  - eapply Forall_impl; [| exact Hinv]. intros ? [? _]. assumption.
  - rewrite Hn0 in Hle. pose proof (Forall2_length Hle) as Hlen.
    rewrite repeat_length in Hlen. rewrite <- Hlen. exact Hle.
Qed.

End Resolution.

Lemma resolution_stays_on_doubling_orbit_witness :
  let run :=
    build_state Examples.clock0 Examples.f_sq ip_linear.class Examples.box1
      (Examples.tol (1 # 100)) None None 3 Examples.w0 in
  st_n (Examples.state_of run) = [9] /\
  Forall on_orbit (st_n (Examples.state_of run)) /\
  Forall2 Z.le (repeat 4 (length (st_n (Examples.state_of run))))
    (st_n (Examples.state_of run)).
Proof.
  intros run. split; [vm_compute; reflexivity |].
  apply (proj2 (proj2 (proj2
           (resolution_stays_on_doubling_orbit Examples.clock0 Examples.f_sq
              ip_linear.class Examples.box1 (Examples.tol (1 # 100)) None None)))
           3%nat Examples.w0 (Examples.state_of run) (snd run)).
  vm_compute. reflexivity.
Defined.

(** ** The cell index of the interpolators *)

Local Open Scope nat_scope.

Lemma get_tabulate {A : Type} `{Default A} (n : nat) (f : nat -> A) (i : nat) :
  i < n -> get (tabulate n f) i = f i.
Proof.
  intros Hi. unfold get, tabulate.
  rewrite (nth_indep _ default (f 0)) by (rewrite length_map, length_seq; exact Hi).
  rewrite (map_nth f (seq 0 n) 0 i). now rewrite seq_nth.
Qed.

Lemma unravel_matrix r c i j :
  i < r -> j < c -> unravel [r; c] (i * c + j) = [i; j].
Proof.
  intros Hi Hj. cbn [unravel size fold_right].
  rewrite !Nat.mul_1_r, !Nat.div_1_r.
  rewrite Nat.div_add_l by lia. rewrite Nat.div_small by lia.
  rewrite Nat.add_0_r.
  replace ((i * c + j) mod c) with j; [reflexivity |].
  rewrite Nat.add_comm, Nat.Div0.mod_add. symmetry. now apply Nat.mod_small.
Qed.

Lemma unravel_vector c j : unravel [c] j = [j].
Proof. cbn [unravel size fold_right]. now rewrite Nat.div_1_r. Qed.

Lemma ravel_matrix r c i j : ravel [r; c] [i; j] = i * c + j.
Proof. cbn. lia. Qed.

Lemma bsrc_matrix r c i j :
  i < r -> j < c -> bsrc [r; c] [r; c] (i * c + j) = i * c + j.
Proof.
  intros Hi Hj. unfold bsrc. rewrite unravel_matrix by assumption.
  cbn [length Nat.sub skipn combine map fst snd].
  rewrite ravel_matrix.
  destruct (Nat.eqb_spec r 1), (Nat.eqb_spec c 1); subst; lia.
Qed.

Lemma bsrc_row r c i j :
  i < r -> j < c -> bsrc [c] [r; c] (i * c + j) = j.
Proof.
  intros Hi Hj. unfold bsrc. rewrite unravel_matrix by assumption.
  cbn [length Nat.sub skipn combine map fst snd ravel size fold_right].
  destruct (Nat.eqb_spec c 1); subst; lia.
Qed.


Lemma bsrc_scalar out k : bsrc [] out k = 0.
Proof.
  unfold bsrc. cbn [length]. rewrite Nat.sub_0_r.
  replace (skipn (length out) (unravel out k)) with (@nil nat); [reflexivity |].
  symmetry. apply skipn_all2.
  clear. revert k. induction out as [| d out IH]; intros k; cbn; [lia |].
  specialize (IH (k mod size out)). lia.
Qed.

Lemma bsrc_vector c j : j < c -> bsrc [c] [c] j = j.
Proof.
  intros Hj. unfold bsrc. rewrite unravel_vector.
  cbn [length Nat.sub skipn combine map fst snd ravel size fold_right].
  destruct (Nat.eqb_spec c 1); subst; lia.
Qed.

Lemma broadcast_shapes_matrix_row r c : broadcast_shapes [r; c] [c] = Ok [r; c].
Proof. unfold broadcast_shapes. cbn. now rewrite Nat.eqb_refl. Qed.

Lemma broadcast_shapes_vector c : broadcast_shapes [c] [c] = Ok [c].
Proof. unfold broadcast_shapes. cbn. now rewrite Nat.eqb_refl. Qed.




Lemma broadcast_shapes_scalar_r s : broadcast_shapes s [] = Ok s.
Proof.
  unfold broadcast_shapes. cbn [rev].
  replace (broadcast_rev (rev s) []) with (Ok (rev s)) by (destruct (rev s); reflexivity).
  cbn [bind]. now rewrite rev_involutive.
Qed.

Section Arrays.
Context {A B C : Type} `{Default A} `{Default B} `{Default C}.

Lemma broadcast2_matrix_row (f : A -> B -> C) a b r c g h :
  arr2 a r c g -> arr1 b c h ->
  exists z, broadcast2 f a b = Ok z /\ arr2 z r c (fun i j => f (g i j) (h j)).
Proof.
  intros [Sa Ga] [Sb Gb]. unfold broadcast2. rewrite Sa, Sb, broadcast_shapes_matrix_row.
  cbn [bind]. eexists. split; [reflexivity |]. split; [reflexivity |].
  intros i j Hi Hj. cbn [data].
  rewrite get_tabulate by (cbn [size fold_right]; nia).
  rewrite bsrc_matrix, bsrc_row by assumption.
  now rewrite Ga, Gb.
Qed.

Lemma broadcast2_vector (f : A -> B -> C) a b c g h :
  arr1 a c g -> arr1 b c h ->
  exists z, broadcast2 f a b = Ok z /\ arr1 z c (fun j => f (g j) (h j)).
Proof.
  intros [Sa Ga] [Sb Gb]. unfold broadcast2. rewrite Sa, Sb, broadcast_shapes_vector.
  cbn [bind]. eexists. split; [reflexivity |]. split; [reflexivity |].
  intros j Hj. cbn [data].
  rewrite get_tabulate by (cbn [size fold_right]; nia).
  rewrite !bsrc_vector by assumption.
  now rewrite Ga, Gb.
Qed.





Lemma transpose_matrix (a : ndarray A) r c g :
  arr2 a r c g -> arr2 (transpose a) c r (fun i j => g j i).
Proof.
  intros [Sa Ga]. unfold transpose. rewrite Sa. cbn [rev app].
  split; [reflexivity |]. intros i j Hi Hj. cbn [data].
  rewrite get_tabulate by (cbn [size fold_right]; nia).
  rewrite unravel_matrix by assumption. cbn [rev app]. rewrite ravel_matrix.
  now apply Ga.
Qed.



End Arrays.

Lemma getitem_box_low (box : ndarray float) n :
  shape box = [2; n] ->
  exists z, getitem box [Int 0] = Ok z /\ arr1 z n (fun j => get (data box) j).
Proof.
  intros Sb. unfold getitem, checked_plan. rewrite Sb. cbn [length Nat.ltb Nat.leb plan].
  cbn [Z.of_nat Pos.of_succ_nat Pos.succ Z.opp Z.leb Z.ltb Z.compare andb bind Z.to_nat].
  eexists. split; [reflexivity |]. split; [reflexivity |].
  intros j Hj. cbn [data selected_shape filter keep map len].
  rewrite get_tabulate by (cbn [size fold_right]; lia).
  rewrite unravel_vector. cbn [src_coords keep lo]. rewrite ravel_matrix. f_equal.
Qed.

Lemma getitem_box_high (box : ndarray float) n :
  shape box = [2; n] ->
  exists z, getitem box [Int 1] = Ok z /\ arr1 z n (fun j => get (data box) (n + j)).
Proof.
  intros Sb. unfold getitem, checked_plan. rewrite Sb. cbn [length Nat.ltb Nat.leb plan].
  cbn [Z.of_nat Pos.of_succ_nat Pos.succ Z.opp Z.leb Z.ltb Z.compare andb bind Z.to_nat
       Pos.to_nat Pos.iter_op Nat.add].
  eexists. split; [reflexivity |]. split; [reflexivity |].
  intros j Hj. cbn [data selected_shape filter keep map len].
  rewrite get_tabulate by (cbn [size fold_right]; lia).
  rewrite unravel_vector. cbn [src_coords keep lo]. rewrite ravel_matrix. f_equal. lia.
Qed.

Lemma of_shape_vector (t : list nat) :
  arr1 (of_shape t) (length t) (fun j => Z.of_nat (nth j t 0)).
Proof.
  unfold of_shape, vector. split; [cbn; now rewrite length_map |].
  intros j Hj. cbn [data]. unfold get.
  change (@default Z _) with (Z.of_nat 0). now rewrite map_nth.
Qed.



Local Open Scope Z_scope.








(** *** Overflow *)











(** *** The scaled coordinate of one point *)











(** The five query points 0, 1/2, 1, 5 and -3 fall in the cells 0, 1, 2, 2
    and 0 of the three cells of the example. *)
Example cell_index_of_queries :
  exists px fx,
    locate Examples.linear_instance Examples.queries
    = Ok (px, mk_ndarray [1; 5]%nat [0; 1; 2; 2; 0], fx).
Proof. do 2 eexists. vm_compute. reflexivity. Qed.

(** ** The interpolator that the driver returns *)

Section CurrentMesh.
Variable clock : nat -> Q.
Variable func : ndarray float -> ndarray float.
Variable interpolator : interpolator_class.
Variable box errlim : ndarray float.
Variable maxsize : option Z.
Variable maxtime : option Q.
Variable return_obox : bool.

Lemma axis_step_built_on_mesh t0 i st w st' w' :
  built_on_mesh func interpolator box st w ->
  axis_step clock func interpolator box errlim maxtime t0 i st w = (Returns st', w') ->
  built_on_mesh func interpolator box st' w'.
Proof.
  intros (x0 & Hg & Hc & Hin) H. apply axis_step_returns in H.
  destruct H as (e & He & [(_ & -> & ->) | (_ & H)]).
  { exists x0. auto. }
  destruct H as (w1 & ni & nnew & x & yinter & err & errs & obox0 & obox1 & H).
  destruct H as (Ht & _ & _ & Hx & _ & -> & _ & _ & Hcase).
  apply time_check_samples in Ht.
  destruct Hcase as [(_ & ->) | (_ & ip & Hip & ->)]; cbn.
  - exists x0. cbn. rewrite Ht. auto.
  - exists x. cbn. auto.
Qed.

Lemma for_each_built_on_mesh t0 axes st w st' w' :
  built_on_mesh func interpolator box st w ->
  for_each (axis_step clock func interpolator box errlim maxtime t0) axes st w
  = (Returns st', w') ->
  built_on_mesh func interpolator box st' w'.
Proof.
  revert st w. induction axes as [| i axes IH]; intros st w Hinv H; cbn [for_each] in H.
  - invert_run. assumption.
  - apply bindM_returns in H. destruct H as (st1 & w1 & H1 & H2).
    eapply IH; [| exact H2]. eapply axis_step_built_on_mesh; eassumption.
Qed.

Lemma round_built_on_mesh idim t0 st w st' done w' :
  built_on_mesh func interpolator box st w ->
  round clock func interpolator box errlim maxsize maxtime idim t0 st w
  = (Returns (st', done), w') ->
  built_on_mesh func interpolator box st' w'.
Proof.
  intros Hinv H. unfold round in H.
  destruct (size_exceeded maxsize (st_n st)); [discriminate |].
  apply bindM_returns in H. destruct H as (st1 & w1 & H1 & H2).
  invert_run. eapply for_each_built_on_mesh; [| exact H1].
  destruct Hinv as (x & ? & ? & ?). exists x. auto.
Qed.

Lemma build_loop_built_on_mesh fuel idim t0 st w st' w' :
  built_on_mesh func interpolator box st w ->
  build_loop clock func interpolator box errlim maxsize maxtime fuel idim t0 st w
  = (Returns st', w') ->
  built_on_mesh func interpolator box st' w'.
Proof.
  revert st w. induction fuel as [| fuel IH]; intros st w Hinv H; cbn [build_loop] in H;
    [discriminate |].
  apply bindM_returns in H. destruct H as ([st1 done] & w1 & Hr & H).
  pose proof (round_built_on_mesh _ _ _ _ _ _ _ Hinv Hr) as Hinv1.
  destruct done; [invert_run; assumption | eauto].
Qed.

Lemma build_init_built_on_mesh w idim t0 st w1 :
  build_init clock func interpolator box w = (Returns (idim, t0, st), w1) ->
  built_on_mesh func interpolator box st w1.
Proof.
  intros H. unfold build_init in H. invert_run.
  unfold time_time in *.
  repeat match goal with
  | H : (_, _) = (_, _) |- _ => inversion H; subst; clear H
  end.
  eexists. cbn. split; [eassumption |]. split; [eassumption |]. now left.
Qed.

(** X1: the interpolator that [build] returns is the one constructed from
    the target function sampled on the final mesh [n], and that mesh was
    handed to the target function during the run. *)
Theorem returned_interpolator_is_built_on_final_mesh fuel w r w' :
  build clock func interpolator box errlim maxsize maxtime return_obox fuel w
  = (Returns r, w') ->
  exists st x obox,
    build_state clock func interpolator box errlim maxsize maxtime fuel w
    = (Returns st, w') /\
    r = RetPair (st_ip st) obox /\
    grid box (st_n st) = Ok x /\
    construct interpolator box (func x) = Ok (st_ip st) /\
    In x (samples w').
Proof.
  intros H. unfold build in H.
  apply bindM_returns in H. destruct H as (st & w1 & Hs & H).
  invert_run.
  assert (Hb : built_on_mesh func interpolator box st w1).
  { unfold build_state in Hs.
    apply bindM_returns in Hs. destruct Hs as ([[idim t0] st0] & w0 & Hi & Hl).
    eapply build_loop_built_on_mesh; [| exact Hl].
    eapply build_init_built_on_mesh; eassumption. }
  destruct Hb as (x & Hg & Hc & Hin).
  exists st, x. eexists. repeat split; try eassumption.
  now destruct return_obox.
Qed.

End CurrentMesh.

Lemma returned_interpolator_is_built_on_final_mesh_witness :
  let run :=
    build Examples.clock0 Examples.f_sq ip_linear.class Examples.box1
      (Examples.tol (1 # 100)) None None false 3 Examples.w0 in
  exists st x obox,
    build_state Examples.clock0 Examples.f_sq ip_linear.class Examples.box1
      (Examples.tol (1 # 100)) None None 3 Examples.w0 = (Returns st, snd run) /\
    match fst run with Returns r => r | _ => RetIp [] end = RetPair (st_ip st) obox /\
    grid Examples.box1 (st_n st) = Ok x /\
    construct ip_linear.class Examples.box1 (Examples.f_sq x) = Ok (st_ip st) /\
    In x (samples (snd run)).
Proof.
  intros run.
  apply (returned_interpolator_is_built_on_final_mesh Examples.clock0 Examples.f_sq
            ip_linear.class Examples.box1 (Examples.tol (1 # 100)) None None false 3
            Examples.w0 (match fst run with Returns r => r | _ => RetIp [] end) (snd run)).
  vm_compute. reflexivity.
Defined.

(** ** The tolerance *)

Section Tolerance.
Variable clock : nat -> Q.
Variable func : ndarray float -> ndarray float.
Variable interpolator : interpolator_class.
Variable box errlim : ndarray float.
Variable maxsize : option Z.
Variable maxtime : option Q.
Variable return_obox : bool.

(** An axis whose last error is within the tolerance is counted and
    nothing else happens. *)
Lemma axis_step_satisfied t0 i st w e :
  item (st_errs st) i = Ok e ->
  exceeds errlim e = Ok false ->
  axis_step clock func interpolator box errlim maxtime t0 i st w
  = (Returns (mk_state (st_n st) (st_x st) (st_ip st) (st_errs st) (st_obox st)
                (st_depth st) (st_nok st + 1)), w).
Proof.
  intros Hitem Hex. unfold axis_step, bindM, lift. rewrite Hitem. cbn. rewrite Hex.
  reflexivity.
Qed.

Lemma for_each_satisfied t0 (axes : list Z) st w e :
  (forall i, In i axes -> item (st_errs st) i = Ok e) ->
  exceeds errlim e = Ok false ->
  for_each (axis_step clock func interpolator box errlim maxtime t0) axes st w
  = (Returns (mk_state (st_n st) (st_x st) (st_ip st) (st_errs st) (st_obox st)
                (st_depth st) (st_nok st + Z.of_nat (length axes))), w).
Proof.
  intros Hitems Hex. revert st Hitems.
  induction axes as [| i axes IH]; intros st Hitems.
  - cbn. unfold ret. destruct st; cbn. now rewrite Z.add_0_r.
  - cbn [for_each]. unfold bindM at 1.
    rewrite (axis_step_satisfied t0 i st w e (Hitems i (or_introl eq_refl)) Hex).
    rewrite IH by (intros j Hj; cbn; apply Hitems; now right).
    cbn [st_n st_x st_ip st_errs st_obox st_depth st_nok length].
    do 3 f_equal. lia.
Qed.

Lemma item_tuple_mul {A : Type} (x : A) (k i : Z) :
  In i (range k) -> item (tuple_mul x k) i = Ok x.
Proof.
  unfold range, tuple_mul, item. intros Hin. apply in_map_iff in Hin.
  destruct Hin as (j & <- & Hj). apply in_seq in Hj.
  rewrite Nat2Z.id.
  rewrite (nth_error_nth' _ x) by (rewrite repeat_length; lia).
  rewrite nth_repeat.
  destruct (Z.leb_spec 0 (Z.of_nat j)); [reflexivity | lia].
Qed.

Lemma range_length (k : Z) : length (range k) = Z.to_nat k.
Proof. unfold range. now rewrite length_map, length_seq. Qed.

(** X2: a tolerance that the initial error [inf] does not exceed (an
    infinite or NaN tolerance in every channel) ends the loop in its first
    round:
    [build] returns the interpolator of the initial 4-point mesh, and the
    target function is not sampled again. *)
Theorem unreachable_tolerance_keeps_initial_mesh fuel w idim t0 st w1 :
  build_init clock func interpolator box w = (Returns (idim, t0, st), w1) ->
  exceeds errlim (scalar PosInf) = Ok false ->
  size_exceeded maxsize (st_n st) = false ->
  build_state clock func interpolator box errlim maxsize maxtime (S fuel) w
  = (Returns (mk_state (st_n st) (st_x st) (st_ip st) (st_errs st) (st_obox st) 1 idim),
     w1) /\
  st_n st = tuple_mul 4 idim /\
  samples w1 = st_x st :: samples w.
Proof.
  intros Hinit Hex Hsize.
  assert (Hst : exists d x ip,
            shape_at box 1 = Ok d /\ idim = Z.of_nat d /\
            st = mk_state (tuple_mul 4 idim) x ip (tuple_mul (scalar PosInf) idim)
                   (scalar PosInf, scalar NegInf) 0 0 /\
            samples w1 = x :: samples w).
  { unfold build_init in Hinit. invert_run. unfold time_time, call_func in *.
    repeat match goal with
    | H : (_, _) = (_, _) |- _ => inversion H; subst; clear H
    end.
    do 3 eexists. repeat split; try eassumption; reflexivity. }
  destruct Hst as (d & x & ip & Hd & -> & -> & Hsamples).
  split; [| split; [reflexivity | exact Hsamples]].
  unfold build_state, bindM at 1. rewrite Hinit.
  cbn [build_loop]. unfold bindM at 1, round.
  cbn [st_n st_x st_ip st_errs st_obox st_depth st_nok] in *.
  rewrite Hsize. unfold bindM at 1.
  rewrite (for_each_satisfied t0 (range (Z.of_nat d)) _ w1 (scalar PosInf));
    [| intros i Hi; cbn [st_errs]; now apply item_tuple_mul | exact Hex].
  cbn [st_n st_x st_ip st_errs st_obox st_depth st_nok].
  rewrite range_length, Nat2Z.id. unfold ret. cbn [Z.add].
  rewrite Z.leb_refl. reflexivity.
Qed.

(** X3: a tolerance given as a single number (a 0-d array after
    [np.asfarray]) cannot be iterated by [any]: with at least one input
    axis, [build] raises [TypeError] at the first axis of the first round,
    right after the initial sampling. *)
Theorem scalar_tolerance_raises_type_error fuel w idim t0 st w1 :
  build_init clock func interpolator box w = (Returns (idim, t0, st), w1) ->
  shape errlim = [] ->
  1 <= idim ->
  size_exceeded maxsize (st_n st) = false ->
  exists msg,
    build clock func interpolator box errlim maxsize maxtime return_obox (S fuel) w
    = (Raises (TypeError msg), w1).
Proof.
  intros Hinit Hshape Hidim Hsize.
  assert (Herrs : st_errs st = tuple_mul (scalar PosInf) idim).
  { unfold build_init in Hinit. invert_run. unfold time_time, call_func in *.
    repeat match goal with
    | H : (_, _) = (_, _) |- _ => inversion H; subst; clear H
    end.
    reflexivity. }
  assert (Hex : exists msg, exceeds errlim (scalar PosInf) = Raise (TypeError msg)).
  { unfold exceeds, broadcast2. cbn [shape scalar]. rewrite Hshape. cbn.
    eexists. reflexivity. }
  destruct Hex as (msg & Hex). exists msg.
  unfold build, build_state. unfold bindM at 1 2. rewrite Hinit.
  cbn [build_loop]. unfold bindM at 1, round. rewrite Hsize.
  unfold bindM at 1. rewrite range_pos by lia. cbn [for_each].
  unfold bindM at 1, axis_step. unfold bindM at 1.
  cbn [st_n st_x st_ip st_errs st_obox st_depth st_nok]. rewrite Herrs.
  rewrite item_tuple_mul by (rewrite range_pos by lia; now left).
  cbn [lift ret]. unfold bindM at 1. rewrite Hex. reflexivity.
Qed.

End Tolerance.

Lemma unreachable_tolerance_keeps_initial_mesh_witness :
  let init := build_init Examples.clock0 Examples.f_sq ip_linear.class Examples.box1
                Examples.w0 in
  let st := Examples.start Examples.f_sq ip_linear.class Examples.box1 in
  build_state Examples.clock0 Examples.f_sq ip_linear.class Examples.box1
    (vector [PosInf]) None None 1 Examples.w0
  = (Returns (mk_state (st_n st) (st_x st) (st_ip st) (st_errs st) (st_obox st) 1 1),
     snd init) /\
  st_n st = tuple_mul 4 1 /\
  samples (snd init) = st_x st :: samples Examples.w0.
Proof.
  intros init st.
  apply (unreachable_tolerance_keeps_initial_mesh Examples.clock0 Examples.f_sq
           ip_linear.class Examples.box1 (vector [PosInf]) None None 0%nat Examples.w0
           1 (Examples.clock0 0) st (snd init));
    vm_compute; reflexivity.
Defined.

Lemma scalar_tolerance_raises_type_error_witness :
  let init := build_init Examples.clock0 Examples.f_sq ip_linear.class Examples.box1
                Examples.w0 in
  exists msg,
    build Examples.clock0 Examples.f_sq ip_linear.class Examples.box1
      (scalar (Fin (1 # 100))) None None false 1 Examples.w0
    = (Raises (TypeError msg), snd init).
Proof.
  intros init.
  apply (scalar_tolerance_raises_type_error Examples.clock0 Examples.f_sq
           ip_linear.class Examples.box1 (scalar (Fin (1 # 100))) None None false 0%nat
           Examples.w0 1 (Examples.clock0 0)
           (Examples.start Examples.f_sq ip_linear.class Examples.box1) (snd init));
    try (vm_compute; reflexivity). lia.
Defined.

(** ** The time budget *)

Section TimeBudget.
Variable clock : nat -> Q.
Variable func : ndarray float -> ndarray float.
Variable interpolator : interpolator_class.
Variable box errlim : ndarray float.

(** X4: the time budget is looked at when an axis is about to be resampled,
    before anything else is done for it.  With a nonzero budget [m] that
    the clock has passed, an axis whose last error exceeds the tolerance
    makes [build] raise the time error after one reading of the clock and
    without a new batch of samples. *)
Theorem time_budget_checked_before_resampling m t0 i st w e :
  item (st_errs st) i = Ok e ->
  exceeds errlim e = Ok true ->
  ~ (m == 0)%Q ->
  (m < clock (ticks w) - t0)%Q ->
  axis_step clock func interpolator box errlim (Some m) t0 i st w
  = (Raises (OverflowError time_message), mk_world (S (ticks w)) (samples w)).
Proof.
  intros Hitem Hex Hm Hlate.
  assert (Hz : Qeq_bool m 0 = false).
  { destruct (Qeq_bool m 0) eqn:E; [| reflexivity]. apply Qeq_bool_eq in E. contradiction. }
  assert (Hlt : Float.Qltb m (clock (ticks w) - t0) = true).
  { unfold Float.Qltb. destruct (Qle_bool _ m) eqn:E; [| reflexivity].
    apply Qle_bool_iff in E. exfalso. exact (Qlt_not_le _ _ Hlate E). }
  unfold axis_step, bindM, lift. rewrite Hitem. cbn. rewrite Hex.
  unfold ret, time_check, bindM, time_time. rewrite Hz. cbn [ticks samples].
  rewrite Hlt. reflexivity.
Qed.

End TimeBudget.

Lemma time_budget_checked_before_resampling_witness :
  let st := Examples.start Examples.f_sq ip_linear.class Examples.box1 in
  let w := Examples.world_after_start Examples.f_sq ip_linear.class Examples.box1 in
  axis_step Examples.clock0 Examples.f_sq ip_linear.class Examples.box1
    (Examples.tol (1 # 100)) (Some (1 # 2)) 0 0 st w
  = (Raises (OverflowError time_message), mk_world (S (ticks w)) (samples w)).
Proof.
  intros st w.
  apply (time_budget_checked_before_resampling Examples.clock0 Examples.f_sq
           ip_linear.class Examples.box1 (Examples.tol (1 # 100)) (1 # 2) 0 0 st w
           (scalar PosInf)).
  - vm_compute. reflexivity.
  - vm_compute. reflexivity.
  - intros E. vm_compute in E. discriminate.
  - vm_compute. reflexivity.
Defined.

(** ** The multilinear interpolator *)

(** X5: [ip_linear.__init__] succeeds only when the box has a second axis
    and the difference tensor can be built; the instance then holds the
    box, the number [n] of input axes, the number [npre] of output axes
    and the difference tensor [ys]. *)
Theorem ip_linear_init_sets_attributes (box y : ndarray float) (self : object) :
  ip_linear.init box y = Ok self ->
  exists n ys,
    shape_at box 1 = Ok n /\
    lin_derivs_forward y (ndim y - Z.of_nat n) = Ok ys /\
    getattr self "box" = Ok (VArr box) /\
    getattr self "n" = Ok (VInt (Z.of_nat n)) /\
    getattr self "npre" = Ok (VInt (ndim y - Z.of_nat n)) /\
    getattr self "ys" = Ok (VArr ys) /\
    getattr self "y" = Raise (AttributeError "y").
Proof.
  unfold ip_linear.init.
  destruct (shape_at box 1) as [n |]; cbn; [| discriminate].
  destruct (lin_derivs_forward y (ndim y - Z.of_nat n)) as [ys |] eqn:Hys; cbn;
    [| discriminate].
  intros E. injection E as <-. exists n, ys. repeat split; reflexivity || assumption.
Qed.

Lemma ip_linear_init_sets_attributes_witness :
  exists n ys,
    shape_at Examples.box1 1 = Ok n /\
    lin_derivs_forward (vector (Examples.floats [0; 1; 4; 9])) (1 - Z.of_nat n) = Ok ys /\
    getattr Examples.linear_instance "box" = Ok (VArr Examples.box1) /\
    getattr Examples.linear_instance "n" = Ok (VInt (Z.of_nat n)) /\
    getattr Examples.linear_instance "npre" = Ok (VInt (1 - Z.of_nat n)) /\
    getattr Examples.linear_instance "ys" = Ok (VArr ys) /\
    getattr Examples.linear_instance "y" = Raise (AttributeError "y").
Proof.
  apply (ip_linear_init_sets_attributes Examples.box1
           (vector (Examples.floats [0; 1; 4; 9])) Examples.linear_instance).
  reflexivity.
Defined.

(** X6: the difference tensor of the samples 0, 1, 4, 9: the samples without
    the last one, and the forward differences. *)
Example lin_derivs_forward_of_squares :
  lin_derivs_forward (vector (Examples.floats [0; 1; 4; 9])) 0
  = Ok (mk_ndarray [2; 3]%nat (Examples.floats [0; 1; 4; 1; 3; 5])).
Proof. vm_compute. reflexivity. Qed.


(** ** The interpolator on an external kernel *)

Lemma broadcast2_vector_scalar {A B C : Type} `{Default A} `{Default B} `{Default C}
    (f : A -> B -> C) a s c g :
  arr1 a c g ->
  exists z, broadcast2 f a (scalar s) = Ok z /\ arr1 z c (fun j => f (g j) s).
Proof.
  intros [Sa Ga]. unfold broadcast2. cbn [shape scalar]. rewrite Sa, broadcast_shapes_scalar_r.
  cbn [bind]. eexists. split; [reflexivity |]. split; [reflexivity |].
  intros j Hj. cbn [data].
  rewrite get_tabulate by (cbn [size fold_right]; lia).
  rewrite bsrc_vector, bsrc_scalar by assumption.
  rewrite Ga by assumption. reflexivity.
Qed.

(** X8: [ip_ndimage] does not clamp.  For an instance holding a box of shape
    [(2, n)] and samples [y] with [n] axes after the first, and a batch of
    [P] points given as an array of shape [(n, P)], the index handed to the
    kernel for the point [p] along the axis [a] is
    [(x - lo) / (hi - lo) * (m - 1)], [m] being the number of samples along
    that axis, whatever the position of the point; the call is the kernel
    applied to the samples and these indices. *)
Theorem ip_ndimage_index_is_affine interpol self box y n P x :
  getattr self "box" = Ok (VArr box) ->
  getattr self "y" = Ok (VArr y) ->
  shape box = [2; n]%nat ->
  shape x = [n; P]%nat ->
  let counts := py_slice (shape y) (Some 1) None in
  length counts = n ->
  exists ix,
    ip_ndimage.sample_index self x = Ok ix /\
    ip_ndimage.call interpol self x = interpol y ix /\
    shape ix = [n; P]%nat /\
    forall a p, (a < n)%nat -> (p < P)%nat ->
      get (data ix) (a * P + p)%nat
      = Float.mul
          (Float.div (Float.sub (get (data x) (a * P + p)%nat) (get (data box) a))
             (Float.sub (get (data box) (n + a)%nat) (get (data box) a)))
          (Float.of_int (Z.of_nat (nth a counts 0%nat) - 1)).
Proof.
  intros Hbox Hy Sb Sx counts Hlen.
  assert (Hx : arr2 x n P (fun a p => get (data x) (a * P + p)%nat)).
  { split; [exact Sx | reflexivity]. }
  assert (Hix : exists ix, ip_ndimage.sample_index self x = Ok ix /\
            arr2 ix n P (fun a p =>
              Float.mul
                (Float.div (Float.sub (get (data x) (a * P + p)%nat) (get (data box) a))
                   (Float.sub (get (data box) (n + a)%nat) (get (data box) a)))
                (Float.of_int (Z.of_nat (nth a counts 0%nat) - 1)))).
  { unfold ip_ndimage.sample_index, attr_arr. rewrite Hbox, Hy. cbn [bind].
    destruct (getitem_box_low box n Sb) as (lo & -> & Hlo). cbn [bind].
    pose proof (transpose_matrix x _ _ _ Hx) as Hxt.
    destruct (broadcast2_matrix_row Float.sub _ _ _ _ _ _ Hxt Hlo) as (off & -> & Hoff).
    cbn [bind].
    destruct (getitem_box_high box n Sb) as (hi & -> & Hhi). cbn [bind].
    destruct (broadcast2_vector Float.sub _ _ _ _ _ Hhi Hlo) as (width & -> & Hwidth).
    cbn [bind].
    destruct (broadcast2_matrix_row Float.div _ _ _ _ _ _ Hoff Hwidth) as (rel & -> & Hrel).
    cbn [bind].
    pose proof (of_shape_vector counts) as Hc. fold counts. rewrite Hlen in Hc.
    destruct (broadcast2_vector_scalar Z.sub _ 1 _ _ Hc) as (last & -> & Hlast).
    cbn [bind].
    destruct (broadcast2_matrix_row (fun r c => Float.mul r (Float.of_int c)) _ _ _ _ _ _
                Hrel Hlast) as (scaled & -> & Hscaled).
    cbn [bind].
    pose proof (transpose_matrix scaled _ _ _ Hscaled) as Hpx.
    eexists. split; [reflexivity |].
    destruct Hpx as [S G]. split; [exact S |]. intros a p Ha Hp.
    rewrite G by assumption. reflexivity. }
  destruct Hix as (ix & Eix & [Six Gix]).
  exists ix. split; [exact Eix |]. split.
  { unfold ip_ndimage.call. rewrite Eix. cbn [bind]. unfold attr_arr. rewrite Hy.
    reflexivity. }
  split; [exact Six | exact Gix].
Qed.

Lemma ip_ndimage_index_is_affine_witness :
  let self := Examples.ndimage_instance in
  let x := mk_ndarray [1; 3]%nat [Fin 1; Fin 5; Fin (-3)] in
  let y := mk_ndarray [1; 4]%nat (Examples.floats [0; 1; 4; 9]) in
  let interpol := fun (_ ix : ndarray float) => Ok ix in
  exists ix,
    ip_ndimage.sample_index self x = Ok ix /\
    ip_ndimage.call interpol self x = interpol y ix /\
    shape ix = [1; 3]%nat /\
    forall a p, (a < 1)%nat -> (p < 3)%nat ->
      get (data ix) (a * 3 + p)%nat
      = Float.mul
          (Float.div (Float.sub (get (data x) (a * 3 + p)%nat) (get (data Examples.box1) a))
             (Float.sub (get (data Examples.box1) (1 + a)%nat) (get (data Examples.box1) a)))
          (Float.of_int (Z.of_nat (nth a (py_slice (shape y) (Some 1) None) 0%nat) - 1)).
Proof.
  intros self x y interpol.
  apply (ip_ndimage_index_is_affine interpol self Examples.box1 y 1%nat 3%nat x);
    reflexivity.
Defined.

(** The indices of the upper edge 1, of 5 and of -3 for samples at 0, 1,
    2, 3 on [0,1]: the last sample, and two indices beyond the samples. *)
Example ip_ndimage_index_of_outside_points :
  ip_ndimage.sample_index Examples.ndimage_instance
    (mk_ndarray [1; 3]%nat [Fin 1; Fin 5; Fin (-3)])
  = Ok (mk_ndarray [1; 3]%nat [Fin 3; Fin 15; Fin (-9)]).
Proof. vm_compute. reflexivity. Qed.
